(** * Structured logging and tracing pipeline: a shallow embedding

    The development follows the layout of the repository:

    - [RequestId]       backend/middleware/request_id.py
    - [SharedLogging]   shared_logging.py
    - [Main]            backend/main.py (the debug API)
    - [AiDebugSummary]  logs/ai_debug_summary.py
    - [ViewLogs]        logs/view_logs.py

    Python strings are modelled as [string] (bytes); the case conversions
    [str.lower] and [str.upper] act on the ASCII letters.  Dictionaries
    whose insertion order is visible (keyword arguments, frame locals,
    logging contexts) are association lists; the logger cache is a [gmap]. *)

From Stdlib Require Import ZArith QArith Qround Ascii String List Bool Lia.
From stdpp Require Import base decidable option list strings pretty gmap sorting.
Import ListNotations.

Set Warnings "-register-all".

Local Open Scope string_scope.
Local Open Scope Z_scope.

(** ** Python helpers *)

Module Py.

(** [c.lower()] on one ASCII character: 'A'..'Z' (65..90) move up by 32. *)
Definition lower_ascii (c : ascii) : ascii :=
  let n := N_of_ascii c in
  if ((65 <=? n) && (n <=? 90))%N then ascii_of_N (n + 32) else c.

(** [c.upper()] on one ASCII character: 'a'..'z' (97..122) move down by 32. *)
Definition upper_ascii (c : ascii) : ascii :=
  let n := N_of_ascii c in
  if ((97 <=? n) && (n <=? 122))%N then ascii_of_N (n - 32) else c.

Fixpoint lower (s : string) : string :=
  match s with
  | EmptyString => EmptyString
  | String c r => String (lower_ascii c) (lower r)
  end.

Fixpoint upper (s : string) : string :=
  match s with
  | EmptyString => EmptyString
  | String c r => String (upper_ascii c) (upper r)
  end.

(** [s.startswith(p)]. *)
Fixpoint startswith (p s : string) : bool :=
  match p with
  | EmptyString => true
  | String a p' =>
      match s with
      | EmptyString => false
      | String b s' => Ascii.eqb a b && startswith p' s'
      end
  end.

(** [pat in s] for two strings: [pat] occurs as a contiguous substring. *)
Fixpoint contains (pat s : string) : bool :=
  startswith pat s ||
  match s with
  | EmptyString => false
  | String _ r => contains pat r
  end.

(** Truthiness of a string: the empty string is falsy. *)
Definition truthy (s : string) : bool := negb (String.eqb s "").

(** [s[:n]] for a string and [0 <= n]. *)
Definition str_take (n : nat) (s : string) : string := String.substring 0 n s.

(** [any(p(x) for x in l)]. *)
Definition any {A} (p : A -> bool) (l : list A) : bool := existsb p l.

(** [l[i:]] with Python's index normalisation: a negative [i] counts from
    the end, and the result is clipped to the list. *)
Definition slice_from {A} (i : Z) (l : list A) : list A :=
  let n := Z.of_nat (length l) in
  let start := if i <? 0 then Z.max 0 (n + i) else Z.min i n in
  drop (Z.to_nat start) l.

(** [l[:i]] with the same normalisation. *)
Definition slice_to {A} (i : Z) (l : list A) : list A :=
  let n := Z.of_nat (length l) in
  let stop := if i <? 0 then Z.max 0 (n + i) else Z.min i n in
  take (Z.to_nat stop) l.

(** Association-list dictionaries: [d.get(k)], [d[k] = v] (an existing key
    keeps its position, a new key is appended). *)
Fixpoint dict_get {V} (k : string) (d : list (string * V)) : option V :=
  match d with
  | [] => None
  | (k', v) :: r => if String.eqb k k' then Some v else dict_get k r
  end.

Fixpoint dict_set {V} (k : string) (v : V) (d : list (string * V))
  : list (string * V) :=
  match d with
  | [] => [(k, v)]
  | (k', v') :: r =>
      if String.eqb k k' then (k', v) :: r else (k', v') :: dict_set k v r
  end.

(** The ASCII characters [str.rstrip()] removes: tab to carriage return,
    the four separators 28..31 and the space. *)
Definition is_space (c : ascii) : bool :=
  let n := N_of_ascii c in
  ((9 <=? n) && (n <=? 13) || (28 <=? n) && (n <=? 32))%N.

Fixpoint lstrip_list (l : list ascii) : list ascii :=
  match l with
  | [] => []
  | c :: r => if is_space c then lstrip_list r else l
  end.

(** [s.rstrip()]. *)
Definition rstrip (s : string) : string :=
  string_of_list_ascii (rev (lstrip_list (rev (list_ascii_of_string s)))).

(** An ASCII lower-case letter. *)
Definition is_lower_ascii (c : ascii) : bool :=
  let n := N_of_ascii c in ((97 <=? n) && (n <=? 122))%N.

(** [sep.join(parts)]. *)
Definition join (sep : string) (parts : list string) : string :=
  String.concat sep parts.

End Py.

(** ** backend/middleware/request_id.py *)

Module RequestId.

(** The value of the context variable [_request_id_context] in the current
    execution context: [None] is the declared default. *)
Definition context_var := option string.

Definition _request_id_context_default : context_var := None.

(** [_request_id_context.set(request_id)]. *)
Definition set (request_id : string) (_ : context_var) : context_var :=
  Some request_id.

(** [_request_id_context.get() or 'no-request-id']: [None] and the empty
    string are both falsy. *)
Definition get_request_id (ctx : context_var) : string :=
  match ctx with
  | Some rid => if Py.truthy rid then rid else "no-request-id"
  | None => "no-request-id"
  end.

(** A response as the middleware sees it: its [X-Request-ID] header and the
    rest, which the middleware does not touch. *)
Record http_response (B : Type) := {
  resp_x_request_id : option string;
  resp_rest : B
}.
Arguments resp_x_request_id {B} _.
Arguments resp_rest {B} _.

(** [RequestIDMiddleware.dispatch(request, call_next)].  [x_request_id] is
    the inbound [X-Request-ID] header when the request has one, [uuid4] is
    [str(uuid.uuid4())], and [call_next] handles the request in the context
    it is given.  The result is the context left behind and the response. *)
Definition dispatch {B} (x_request_id : option string) (uuid4 : string)
    (call_next : context_var -> http_response B) (ctx : context_var)
  : context_var * http_response B :=
  let request_id := default uuid4 x_request_id in
  let ctx := set request_id ctx in
  let response := call_next ctx in
  (ctx, {| resp_x_request_id := Some request_id;
           resp_rest := resp_rest response |}).

End RequestId.

(** ** shared_logging.py *)

Module SharedLogging.

(** Values that logging contexts carry ([json.dumps] renders them). *)
Inductive py_value :=
| VNone
| VStr (s : string)
| VInt (z : Z)
| VNum (q : Q)
| VDict (d : list (string * py_value)).

Definition py_dict := list (string * py_value).

(** The levels of the [logging] module and their numeric values. *)
Inductive level := DEBUG | INFO | WARNING | ERROR | CRITICAL.

Definition levelno (l : level) : Z :=
  match l with
  | DEBUG => 10 | INFO => 20 | WARNING => 30 | ERROR => 40 | CRITICAL => 50
  end.

Definition levelname (l : level) : string :=
  match l with
  | DEBUG => "DEBUG" | INFO => "INFO" | WARNING => "WARNING"
  | ERROR => "ERROR" | CRITICAL => "CRITICAL"
  end.

(** A raised Python exception: [type(e).__name__], [str(e)], and whether
    [isinstance(e, Exception)] holds (it does not for [KeyboardInterrupt],
    [SystemExit], [GeneratorExit] or [asyncio.CancelledError]). *)
Record py_exception := {
  exc_type : string;
  exc_str : string;
  exc_is_Exception : bool
}.

(** The attributes of a [logging.LogRecord] that the handlers read. *)
Record log_record := {
  rec_created : Q;
  rec_level : level;
  rec_name : string;
  rec_filename : string;
  rec_lineno : Z;
  rec_funcName : string;
  rec_message : string;
  rec_module_tag : option string;
  rec_request_id : option string;
  rec_span_id : option string;
  rec_span_op : option string;
  rec_duration_ms : option Q;
  rec_log_context : option py_value;
  rec_exc_info : option (py_exception * string)
}.

Definition set_module_tag (t : string) (r : log_record) : log_record :=
  {| rec_created := rec_created r; rec_level := rec_level r;
     rec_name := rec_name r; rec_filename := rec_filename r;
     rec_lineno := rec_lineno r; rec_funcName := rec_funcName r;
     rec_message := rec_message r; rec_module_tag := Some t;
     rec_request_id := rec_request_id r; rec_span_id := rec_span_id r;
     rec_span_op := rec_span_op r; rec_duration_ms := rec_duration_ms r;
     rec_log_context := rec_log_context r; rec_exc_info := rec_exc_info r |}.

Definition set_request_id (i : string) (r : log_record) : log_record :=
  {| rec_created := rec_created r; rec_level := rec_level r;
     rec_name := rec_name r; rec_filename := rec_filename r;
     rec_lineno := rec_lineno r; rec_funcName := rec_funcName r;
     rec_message := rec_message r; rec_module_tag := rec_module_tag r;
     rec_request_id := Some i; rec_span_id := rec_span_id r;
     rec_span_op := rec_span_op r; rec_duration_ms := rec_duration_ms r;
     rec_log_context := rec_log_context r; rec_exc_info := rec_exc_info r |}.

(** [ModuleTagFilter(module_tag).filter(record)]: the record is tagged and
    always accepted. *)
Definition ModuleTagFilter_filter (module_tag : string) (r : log_record)
  : log_record := set_module_tag module_tag r.

(** [RequestIDFilter.filter(record)].  [import_ok] tells whether importing
    [backend.middleware.request_id] succeeds; the bare [except] covers the
    import and the call. *)
Definition RequestIDFilter_filter (import_ok : bool)
    (ctx : RequestId.context_var) (r : log_record) : log_record :=
  if import_ok then set_request_id (RequestId.get_request_id ctx) r
  else set_request_id "----" r.

(** *** Sinks and handlers *)

Inductive sink := Stdout | LogFile (filename : string).

Inductive handler_class :=
| StreamHandler
| TimedRotatingFileHandler (backupCount : Z)
| JSONLineHandler.

Inductive formatter := SIMPLE_FORMAT | DETAILED_FORMAT.

Record handler := {
  h_class : handler_class;
  h_sink : sink;
  h_level : Z;
  h_formatter : option formatter;
  h_request_id_filter : bool
}.

(** The process-wide state: the module globals [_initialized] and
    [_loggers], and the part of the [logging] module's state that the
    module touches.  A logger object is identified by its name in the
    logging manager; [logger_filters] holds, per logger, the tags of the
    [ModuleTagFilter] objects attached to it, oldest first. *)
Record logging_state := {
  _initialized : bool;
  _loggers : gmap string string;
  root_level : Z;
  root_handlers : list handler;
  logger_levels : gmap string Z;
  logger_filters : gmap string (list string);
  stdout : list string
}.

Definition initial_state : logging_state :=
  {| _initialized := false; _loggers := ∅;
     root_level := 30; root_handlers := [];
     logger_levels := ∅; logger_filters := ∅; stdout := [] |}.

Definition LOG_DIR : string := "logs".

(** [getattr(logging, name, logging.INFO)] on the level constants of the
    logging module. *)
Definition logging_level_attr (name : string) : Z :=
  if String.eqb name "CRITICAL" then 50
  else if String.eqb name "FATAL" then 50
  else if String.eqb name "ERROR" then 40
  else if String.eqb name "WARNING" then 30
  else if String.eqb name "WARN" then 30
  else if String.eqb name "INFO" then 20
  else if String.eqb name "DEBUG" then 10
  else if String.eqb name "NOTSET" then 0
  else 20.

Definition console_handler (numeric_level : Z) : handler :=
  {| h_class := StreamHandler; h_sink := Stdout; h_level := numeric_level;
     h_formatter := Some SIMPLE_FORMAT; h_request_id_filter := true |}.

Definition main_handler : handler :=
  {| h_class := TimedRotatingFileHandler 30;
     h_sink := LogFile "application.log"; h_level := levelno INFO;
     h_formatter := Some DETAILED_FORMAT; h_request_id_filter := true |}.

Definition error_handler : handler :=
  {| h_class := TimedRotatingFileHandler 90;
     h_sink := LogFile "application_errors.log"; h_level := levelno ERROR;
     h_formatter := Some DETAILED_FORMAT; h_request_id_filter := true |}.

Definition json_handler : handler :=
  {| h_class := JSONLineHandler;
     h_sink := LogFile "application.jsonl"; h_level := levelno INFO;
     h_formatter := None; h_request_id_filter := true |}.

Definition setup_centralized_logging (log_level : string)
    (console_output : bool) (st : logging_state) : logging_state :=
  if _initialized st then st
  else
    let numeric_level := logging_level_attr (Py.upper log_level) in
    (* root_logger.handlers.clear() *)
    let handlers := [] in
    let handlers :=
      if console_output then (handlers ++ [console_handler numeric_level])%list
      else handlers in
    let handlers := (handlers ++ [main_handler])%list in
    let handlers := (handlers ++ [error_handler])%list in
    let handlers := (handlers ++ [json_handler])%list in
    let levels := <["httpx" := levelno WARNING]> (logger_levels st) in
    let levels := <["httpcore" := levelno WARNING]> levels in
    let levels := <["urllib3" := levelno WARNING]> levels in
    let levels := <["uvicorn.access" := levelno WARNING]> levels in
    let levels := <["uvicorn.error" := levelno WARNING]> levels in
    {| _initialized := true;
       _loggers := _loggers st;
       root_level := numeric_level;
       root_handlers := handlers;
       logger_levels := levels;
       logger_filters := logger_filters st;
       stdout := (stdout st ++
         [("Centralized logging initialized (with AI debug features) | Log directory: "
            ++ LOG_DIR)%string])%list |}.

(** [logging.getLogger(name)]: one logger object per name; the empty name
    is the root logger. *)
Definition getLogger (name : string) : string :=
  if String.eqb name "" then "root" else name.

(** [logger.addFilter(ModuleTagFilter(module))]: the new filter object is
    appended to the logger's filter list. *)
Definition addFilter (logger tag : string) (st : logging_state)
  : logging_state :=
  {| _initialized := _initialized st;
     _loggers := _loggers st;
     root_level := root_level st;
     root_handlers := root_handlers st;
     logger_levels := logger_levels st;
     logger_filters :=
       <[logger := (default [] (logger_filters st !! logger) ++ [tag])%list]>
         (logger_filters st);
     stdout := stdout st |}.

Definition cache_logger (key logger : string) (st : logging_state)
  : logging_state :=
  {| _initialized := _initialized st;
     _loggers := <[key := logger]> (_loggers st);
     root_level := root_level st;
     root_handlers := root_handlers st;
     logger_levels := logger_levels st;
     logger_filters := logger_filters st;
     stdout := stdout st |}.

Definition get_logger (name module : string) (st : logging_state)
  : string * logging_state :=
  let st :=
    if _initialized st then st else setup_centralized_logging "INFO" true st in
  let logger_key := module ++ ":" ++ name in
  match _loggers st !! logger_key with
  | Some logger => (logger, st)
  | None =>
      let logger := getLogger name in
      let st := addFilter logger module st in
      let st := cache_logger logger_key logger st in
      (logger, st)
  end.

Definition get_frontend_logger (name : string) (st : logging_state)
  : string * logging_state := get_logger name "FRONTEND" st.

(** [Logger.filter(record)] for the filters [get_logger] attached: they run
    in the order they were added, each overwriting [record.module_tag]. *)
Definition logger_filter (logger : string) (st : logging_state)
    (r : log_record) : log_record :=
  fold_left (fun r tag => ModuleTagFilter_filter tag r)
            (default [] (logger_filters st !! logger)) r.

(** The sinks a record reaches through the root logger's handlers. *)
Definition callHandlers (st : logging_state) (r : log_record) : list sink :=
  map h_sink
      (List.filter (fun h => h_level h <=? levelno (rec_level r))
                   (root_handlers st)).

(** *** Calls on a logger

    [logger.info(msg, extra=extra)] and [logger.error(msg, extra=extra,
    exc_info=...)]: what the module hands to the logging framework.  The
    framework copies the items of [extra] into the record when the call is
    made, so a call holds the value [extra] had at that moment. *)
Record extra := {
  x_span_id : option string;
  x_span_op : option string;
  x_duration_ms : option Q;
  x_log_context : option py_value
}.

Record log_call := {
  call_logger : string;
  call_level : level;
  call_msg : string;
  call_extra : extra;
  call_exc_info : bool
}.

(** The names of the ancestors of a logger in the dotted hierarchy,
    shortest first: "a.b.c" has "a" and "a.b".  [acc] is the part of the
    name already read. *)
Fixpoint dotted_prefixes (acc s : string) : list string :=
  match s with
  | EmptyString => []
  | String c r =>
      if Ascii.eqb c "."
      then acc :: dotted_prefixes (acc ++ ".") r
      else dotted_prefixes (acc ++ String c EmptyString) r
  end.

(** [Logger.getEffectiveLevel()]: the level of the nearest logger, from the
    logger itself up through its ancestors, that has one set; the root
    logger's level otherwise. *)
Definition getEffectiveLevel (st : logging_state) (logger : string) : Z :=
  let set_level name :=
    match logger_levels st !! name with
    | Some l => if l =? 0 then None else Some l
    | None => None
    end in
  default (root_level st)
          (head (omap set_level (logger :: rev (dotted_prefixes "" logger)))).

(** The sinks a call reaches: none when the logger is not enabled for its
    level; otherwise the record propagates to the handlers of the root
    logger, each with its own threshold. *)
Definition sinks_reached (st : logging_state) (c : log_call) : list sink :=
  if levelno (call_level c) <? getEffectiveLevel st (call_logger c) then []
  else map h_sink
           (List.filter (fun h => h_level h <=? levelno (call_level c))
                        (root_handlers st)).

(** [Logger.makeRecord]: the record the framework builds for a call, with
    the provenance it finds and the exception being handled (used when the
    call passed [exc_info=True]). *)
Definition makeRecord (created : Q) (filename : string) (lineno : Z)
    (funcName : string) (handled : option (py_exception * string))
    (c : log_call) : log_record :=
  {| rec_created := created; rec_level := call_level c;
     rec_name := call_logger c; rec_filename := filename;
     rec_lineno := lineno; rec_funcName := funcName;
     rec_message := call_msg c; rec_module_tag := None;
     rec_request_id := None;
     rec_span_id := x_span_id (call_extra c);
     rec_span_op := x_span_op (call_extra c);
     rec_duration_ms := x_duration_ms (call_extra c);
     rec_log_context := x_log_context (call_extra c);
     rec_exc_info := if call_exc_info c then handled else None |}.

Definition of_opt_str (o : option string) : py_value :=
  match o with Some s => VStr s | None => VNone end.

Definition of_opt_num (o : option Q) : py_value :=
  match o with Some q => VNum q | None => VNone end.

Definition is_VNone (v : py_value) : bool :=
  match v with VNone => true | _ => false end.

(** [JSONLineHandler.emit(record)]: the object written as one line of
    application.jsonl.  [utcnow] is [datetime.utcnow().isoformat()]. *)
Definition JSONLineHandler_emit (utcnow : string) (r : log_record) : py_dict :=
  let log_entry : py_dict :=
    [ ("ts", VStr (utcnow ++ "Z"));
      ("unix_ts", VNum (rec_created r));
      ("level", VStr (levelname (rec_level r)));
      ("module", VStr (default "MAIN" (rec_module_tag r)));
      ("request_id", of_opt_str (rec_request_id r));
      ("logger", VStr (rec_name r));
      ("file", VStr (rec_filename r));
      ("line", VInt (rec_lineno r));
      ("func", VStr (rec_funcName r));
      ("msg", VStr (rec_message r));
      ("span_id", of_opt_str (rec_span_id r));
      ("span_op", of_opt_str (rec_span_op r));
      ("duration_ms", of_opt_num (rec_duration_ms r));
      ("context", default VNone (rec_log_context r)) ] in
  let log_entry :=
    match rec_exc_info r with
    | Some (e, tb) =>
        Py.dict_set "exception"
          (VDict [ ("type", VStr (exc_type e));
                   ("message", VStr (exc_str e));
                   ("traceback", VStr tb) ]) log_entry
    | None => log_entry
    end in
  List.filter (fun kv => negb (is_VNone (snd kv))) log_entry.

(** The object before the [None] values are removed. *)
Definition log_entry_of (utcnow : string) (r : log_record) : py_dict :=
  let log_entry : py_dict :=
    [ ("ts", VStr (utcnow ++ "Z"));
      ("unix_ts", VNum (rec_created r));
      ("level", VStr (levelname (rec_level r)));
      ("module", VStr (default "MAIN" (rec_module_tag r)));
      ("request_id", of_opt_str (rec_request_id r));
      ("logger", VStr (rec_name r));
      ("file", VStr (rec_filename r));
      ("line", VInt (rec_lineno r));
      ("func", VStr (rec_funcName r));
      ("msg", VStr (rec_message r));
      ("span_id", of_opt_str (rec_span_id r));
      ("span_op", of_opt_str (rec_span_op r));
      ("duration_ms", of_opt_num (rec_duration_ms r));
      ("context", default VNone (rec_log_context r)) ] in
  match rec_exc_info r with
  | Some (e, tb) =>
      Py.dict_set "exception"
        (VDict [ ("type", VStr (exc_type e));
                 ("message", VStr (exc_str e));
                 ("traceback", VStr tb) ]) log_entry
  | None => log_entry
  end.

(** *** Operation spans *)

Inductive outcome (A : Type) :=
| Returned (a : A)
| Raised (e : py_exception).
Arguments Returned {A} a.
Arguments Raised {A} e.

(** One run of a block of code: the logger calls it made, in order, how it
    ended, and the registry state it left. *)
Record run (A : Type) := {
  run_calls : list log_call;
  run_outcome : outcome A;
  run_state : logging_state
}.
Arguments run_calls {A} r.
Arguments run_outcome {A} r.
Arguments run_state {A} r.

Section Spans.

(** [json.dumps(context, default=str)] and the format [{duration_ms:.2f}]
    belong to the Python runtime. *)
Variable json_dumps : py_dict -> string.
Variable format_2f : Q -> string.

(** The statement
    [with log_span(operation, logger, **context) as span_id: body(span_id)].
    [span_id] is [str(uuid.uuid4())[:8]]; [start_time] and [end_time] are the
    two readings of [time.time()], before and after the body. *)
Definition log_span {A : Type} (operation : string) (logger : option string)
    (context : py_dict) (span_id : string) (start_time end_time : Q)
    (body : string -> logging_state -> run A) (st : logging_state) : run A :=
  let '(logger, st) :=
    match logger with
    | Some l => (l, st)
    | None => get_logger "shared_logging" "SPAN" st
    end in
  let extra0 :=
    {| x_span_id := Some span_id; x_span_op := Some operation;
       x_duration_ms := None;
       x_log_context :=
         match context with [] => None | _ => Some (VDict context) end |} in
  let span_start :=
    {| call_logger := logger; call_level := INFO;
       call_msg :=
         "SPAN_START:" ++ operation ++ " | context=" ++ json_dumps context;
       call_extra := extra0; call_exc_info := false |} in
  let r := body span_id st in
  match run_outcome r with
  | Raised e =>
      if exc_is_Exception e then
        (* except Exception as e: ...; raise *)
        let duration_ms := ((end_time - start_time) * inject_Z 1000)%Q in
        let extra1 :=
          {| x_span_id := x_span_id extra0; x_span_op := x_span_op extra0;
             x_duration_ms := Some duration_ms;
             x_log_context :=
               Some (VDict
                 (Py.dict_set "error_type" (VStr (exc_type e))
                    (Py.dict_set "error" (VStr (exc_str e)) context))) |} in
        let span_error :=
          {| call_logger := logger; call_level := ERROR;
             call_msg :=
               "SPAN_ERROR:" ++ operation ++ " | duration="
                 ++ format_2f duration_ms ++ "ms | error=" ++ exc_str e;
             call_extra := extra1; call_exc_info := false |} in
        {| run_calls := (span_start :: run_calls r ++ [span_error])%list;
           run_outcome := Raised e;
           run_state := run_state r |}
      else
        (* not caught by the generator: neither handler nor else clause *)
        {| run_calls := span_start :: run_calls r;
           run_outcome := Raised e;
           run_state := run_state r |}
  | Returned a =>
      let duration_ms := ((end_time - start_time) * inject_Z 1000)%Q in
      let extra1 :=
        {| x_span_id := x_span_id extra0; x_span_op := x_span_op extra0;
           x_duration_ms := Some duration_ms;
           x_log_context := x_log_context extra0 |} in
      let span_end :=
        {| call_logger := logger; call_level := INFO;
           call_msg :=
             "SPAN_END:" ++ operation ++ " | duration="
               ++ format_2f duration_ms ++ "ms";
           call_extra := extra1; call_exc_info := false |} in
      {| run_calls := (span_start :: run_calls r ++ [span_end])%list;
         run_outcome := Returned a;
         run_state := run_state r |}
  end.

End Spans.

(** The kind of a span record, read off its message. *)
Definition is_span_start (c : log_call) : bool :=
  Py.startswith "SPAN_START:" (call_msg c).
Definition is_span_error (c : log_call) : bool :=
  Py.startswith "SPAN_ERROR:" (call_msg c).
Definition is_span_end (c : log_call) : bool :=
  Py.startswith "SPAN_END:" (call_msg c).

Inductive span_kind := SpanStart | SpanError | SpanEnd.

Definition span_kind_of (c : log_call) : option span_kind :=
  if is_span_start c then Some SpanStart
  else if is_span_error c then Some SpanError
  else if is_span_end c then Some SpanEnd
  else None.

(** The registry state the body of a span starts from: the default logger
    is acquired before the body runs. *)
Definition span_entry_state (logger : option string) (st : logging_state)
  : logging_state :=
  match logger with
  | Some _ => st
  | None => (get_logger "shared_logging" "SPAN" st).2
  end.

(** *** Exception context *)

Definition sensitive_patterns : list string :=
  ["password"; "token"; "key"; "secret"; "credential"; "auth"].

(** [any(pattern in k.lower() for pattern in sensitive_patterns)]. *)
Definition is_sensitive (k : string) : bool :=
  Py.any (fun pattern => Py.contains pattern (Py.lower k)) sensitive_patterns.

(** [s[:i]] on a string, with Python's index normalisation. *)
Definition str_slice_to (i : Z) (s : string) : string :=
  let n := Z.of_nat (String.length s) in
  let stop := if i <? 0 then Z.max 0 (n + i) else Z.min i n in
  String.substring 0 (Z.to_nat stop) s.

(** One turn of the loop over [frame.f_locals.items()].  A local is given by
    its name and by what [repr] does on its value: [Some s] when it returns
    [s], [None] when it raises. *)
Definition capture_local (max_local_repr : Z) (locals_safe : py_dict)
    (kv : string * option string) : py_dict :=
  let '(k, v) := kv in
  if Py.startswith "_" k then locals_safe
  else if is_sensitive k
  then Py.dict_set k (VStr "[REDACTED]") locals_safe
  else
    match v with
    | Some repr_val =>
        let repr_val :=
          if max_local_repr <? Z.of_nat (String.length repr_val)
          then str_slice_to max_local_repr repr_val ++ "...[truncated]"
          else repr_val in
        Py.dict_set k (VStr repr_val) locals_safe
    | None => Py.dict_set k (VStr "[repr failed]") locals_safe
    end.

(** What one turn of the loop stores for a public name. *)
Definition stored_repr (max_local_repr : Z) (k : string) (v : option string)
  : string :=
  if is_sensitive k then "[REDACTED]"
  else match v with
       | Some repr_val =>
           if max_local_repr <? Z.of_nat (String.length repr_val)
           then str_slice_to max_local_repr repr_val ++ "...[truncated]"
           else repr_val
       | None => "[repr failed]"
       end.

(** [frame] is the caller's frame, as its [f_locals] items in order, or
    [None] when the interpreter has no frame support. *)
Definition locals_safe_of (include_locals : bool) (max_local_repr : Z)
    (frame : option (list (string * option string))) : py_dict :=
  match frame with
  | Some f_locals =>
      if include_locals
      then fold_left (capture_local max_local_repr) f_locals []
      else []
  | None => []
  end.

(** [log_exception_context(logger, exc, message, include_locals,
    max_local_repr)]: the one [logger.error] call it makes.
    [format_exc] is [traceback.format_exc()]. *)
Definition log_exception_context (logger : string) (exc : py_exception)
    (message : string) (include_locals : bool) (max_local_repr : Z)
    (frame : option (list (string * option string))) (format_exc : string)
  : log_call :=
  let locals_safe := locals_safe_of include_locals max_local_repr frame in
  let context : py_dict :=
    [ ("exception_type", VStr (exc_type exc));
      ("exception_message", VStr (exc_str exc));
      ("locals", match locals_safe with [] => VNone | _ => VDict locals_safe end);
      ("traceback", VStr format_exc) ] in
  {| call_logger := logger; call_level := ERROR;
     call_msg := message ++ " | " ++ exc_type exc ++ ": " ++ exc_str exc;
     call_extra :=
       {| x_span_id := None; x_span_op := None; x_duration_ms := None;
          x_log_context := Some (VDict context) |};
     call_exc_info := true |}.

(** *** From a call to a line of application.jsonl

    What the framework supplies when a call is turned into a record and the
    record reaches the JSON handler. *)
Record emission := {
  em_created : Q;
  em_utcnow : string;
  em_filename : string;
  em_lineno : Z;
  em_funcName : string;
  em_handled : option (py_exception * string);
  em_import_ok : bool;
  em_context : RequestId.context_var
}.

(** The object written for a call: the record is made, goes through the
    filters of its logger, then through the request-id filter of the
    handler, and is emitted. *)
Definition json_line (st : logging_state) (em : emission) (c : log_call)
  : py_dict :=
  JSONLineHandler_emit (em_utcnow em)
    (RequestIDFilter_filter (em_import_ok em) (em_context em)
       (logger_filter (call_logger c) st
          (makeRecord (em_created em) (em_filename em) (em_lineno em)
                      (em_funcName em) (em_handled em) c))).

(** The record the JSON handler receives for a call. *)
Definition handled_record (st : logging_state) (em : emission)
    (c : log_call) : log_record :=
  RequestIDFilter_filter (em_import_ok em) (em_context em)
    (logger_filter (call_logger c) st
       (makeRecord (em_created em) (em_filename em) (em_lineno em)
                   (em_funcName em) (em_handled em) c)).

(** The [locals] map inside the [context] of a written object. *)
Definition line_locals (line : py_dict) : option py_dict :=
  match Py.dict_get "context" line with
  | Some (VDict context) =>
      match Py.dict_get "locals" context with
      | Some (VDict d) => Some d
      | _ => None
      end
  | _ => None
  end.

End SharedLogging.

(** ** The JSON-lines records as the readers see them

    A line of application.jsonl that decodes is read through
    [entry.get(key, default)].  The readers are modelled on objects of the
    schema [JSONLineHandler.emit] writes: every field is optional, the text
    fields are strings, [duration_ms] is a number. *)

Module Jsonl.

Record exception_info := {
  ex_type : option string;
  ex_message : option string;
  ex_traceback : option string
}.

Record entry := {
  ts : option string;
  level : option string;
  module : option string;
  request_id : option string;
  msg : option string;
  span_op : option string;
  duration_ms : option Q;
  exception : option exception_info
}.

(** [entry.get(key, '')]. *)
Definition get_str (field : entry -> option string) (e : entry) : string :=
  default "" (field e).

(** [d[key] += 1] on a [defaultdict(int)]. *)
Definition dict_incr (k : string) (d : list (string * Z)) : list (string * Z) :=
  Py.dict_set k (default 0 (Py.dict_get k d) + 1) d.

(** The histogram loops: [counts[log.get(key, 'UNKNOWN')] += 1]. *)
Definition count_by (field : entry -> option string) (logs : list entry)
  : list (string * Z) :=
  fold_left (fun d log => dict_incr (default "UNKNOWN" (field log)) d) logs [].

(** The set of request ids that are set and are not the placeholder. *)
Definition request_ids (logs : list entry) : list string :=
  remove_dups
    (omap (fun log =>
             match request_id log with
             | Some r =>
                 if Py.truthy r && negb (String.eqb r "----") then Some r
                 else None
             | None => None
             end) logs).

Definition is_error (log : entry) : bool :=
  match level log with
  | Some l => String.eqb l "ERROR"
  | None => false
  end.

(** The number of elements filed under [k]. *)
Definition filed {A} (key : A -> string) (k : string) (l : list A) : nat :=
  length (List.filter (fun x => String.eqb (key x) k) l).

End Jsonl.

(** ** backend/main.py *)

Module Main.
Import Jsonl.

Record error_item := {
  err_ts : option string;
  err_msg : string;
  err_module : option string;
  err_request_id : option string;
  err_exception : option string
}.

Record slow_item := {
  slow_ts : option string;
  slow_operation : option string;
  slow_duration_ms : Q;
  slow_request_id : option string
}.

Record log_summary := {
  total_entries : nat;
  level_distribution : list (string * Z);
  module_distribution : list (string * Z);
  unique_requests : nat;
  error_count : nat;
  recent_errors : list error_item;
  slow_operations : list slow_item;
  time_range : option string * option string
}.

Definition error_item_of (log : entry) : error_item :=
  {| err_ts := ts log;
     err_msg := Py.str_take 200 (get_str msg log);
     err_module := module log;
     err_request_id := request_id log;
     err_exception :=
       match exception log with
       | Some x => ex_type x
       | None => None
       end |}.

(** [duration and duration > 1000]. *)
Definition is_slow (d : Q) : bool :=
  negb (Qeq_bool d 0) && negb (Qle_bool d (inject_Z 1000)).

Definition slow_item_of (log : entry) : option slow_item :=
  match duration_ms log with
  | Some d =>
      if is_slow d
      then Some {| slow_ts := ts log; slow_operation := span_op log;
                   slow_duration_ms := d; slow_request_id := request_id log |}
      else None
  | None => None
  end.

(** [sorted(l, key=duration_ms, reverse=True)]: descending, and stable. *)
Fixpoint insert_desc (x : slow_item) (l : list slow_item) : list slow_item :=
  match l with
  | [] => [x]
  | y :: r =>
      if Qle_bool (slow_duration_ms x) (slow_duration_ms y)
      then y :: insert_desc x r
      else x :: y :: r
  end.

Definition sorted_desc (l : list slow_item) : list slow_item :=
  fold_left (fun acc x => insert_desc x acc) l [].

Definition _generate_log_summary (logs : list entry) : log_summary :=
  let errors := map error_item_of (List.filter is_error logs) in
  let slow := omap slow_item_of logs in
  {| total_entries := length logs;
     level_distribution := count_by level logs;
     module_distribution := count_by module logs;
     unique_requests := length (request_ids logs);
     error_count := length errors;
     recent_errors := Py.slice_to 5 errors;
     slow_operations := Py.slice_to 5 (sorted_desc slow);
     time_range := (head logs ≫= ts, last logs ≫= ts) |}.

Record filters := {
  f_level : option string;
  f_request_id : option string;
  f_module : option string;
  f_search : option string;
  f_since_minutes : option Z
}.

Inductive response :=
| NoLogsFound
| Logs (logs : list entry) (count : nat) (filters_applied : filters)
       (summary : option log_summary).

(** A string parameter is supplied when it is neither [None] nor empty. *)
Definition supplied (p : option string) : option string :=
  match p with
  | Some s => if Py.truthy s then Some s else None
  | None => None
  end.

Section Query.

(** [loads line] is [json.loads(line.strip())]: [None] stands for
    [json.JSONDecodeError].  [cutoff_of m] is
    [(datetime.utcnow() - timedelta(minutes=m)).isoformat() + "Z"]. *)
Variable loads : string -> option entry.
Variable cutoff_of : Z -> string.

(** The filters of the scan loop, in the order of the [continue] tests. *)
Definition keep (cutoff_time : option string) (q : filters) (e : entry)
  : bool :=
  if match supplied cutoff_time with
     | Some c => String.ltb (get_str ts e) c
     | None => false
     end then false
  else if match supplied (f_level q) with
     | Some l => negb (String.eqb (Py.upper (get_str level e)) (Py.upper l))
     | None => false
     end then false
  else if match supplied (f_request_id q) with
     | Some r => negb (Py.contains r (get_str request_id e))
     | None => false
     end then false
  else if match supplied (f_module q) with
     | Some m => negb (String.eqb (Py.upper (get_str module e)) (Py.upper m))
     | None => false
     end then false
  else if match supplied (f_search q) with
     | Some s => negb (Py.contains (Py.lower s) (Py.lower (get_str msg e)))
     | None => false
     end then false
  else true.

(** The five tests one by one: each holds when its filter is not supplied
    or the entry passes it. *)
Definition time_ok (cutoff_time : option string) (e : entry) : bool :=
  match supplied cutoff_time with
  | Some c => negb (String.ltb (get_str ts e) c)
  | None => true
  end.

Definition level_ok (q : filters) (e : entry) : bool :=
  match supplied (f_level q) with
  | Some l => String.eqb (Py.upper (get_str level e)) (Py.upper l)
  | None => true
  end.

Definition request_id_ok (q : filters) (e : entry) : bool :=
  match supplied (f_request_id q) with
  | Some r => Py.contains r (get_str request_id e)
  | None => true
  end.

Definition module_ok (q : filters) (e : entry) : bool :=
  match supplied (f_module q) with
  | Some m => String.eqb (Py.upper (get_str module e)) (Py.upper m)
  | None => true
  end.

Definition search_ok (q : filters) (e : entry) : bool :=
  match supplied (f_search q) with
  | Some s => Py.contains (Py.lower s) (Py.lower (get_str msg e))
  | None => true
  end.

(** The loop [for line in reversed(lines)], run on the reversed lines with
    the list [logs] collected so far. *)
Fixpoint scan (last : Z) (cutoff_time : option string) (q : filters)
    (rlines : list string) (logs : list entry) : list entry :=
  match rlines with
  | [] => logs
  | line :: rest =>
      if Z.of_nat (length logs) >=? last then logs
      else
        match loads line with
        | None => scan last cutoff_time q rest logs
        | Some e =>
            if keep cutoff_time q e
            then scan last cutoff_time q rest (logs ++ [e])
            else scan last cutoff_time q rest logs
        end
  end.

(** [cutoff_time], set under [if since_minutes:]. *)
Definition cutoff_time_of (q : filters) : option string :=
  match f_since_minutes q with
  | Some m => if m =? 0 then None else Some (cutoff_of m)
  | None => None
  end.

(** [get_debug_logs]: [file] is the list of lines of application.jsonl, or
    [None] when the file does not exist.  Reading the file is taken to
    succeed, and the lines that decode are objects of the schema above, so
    the handler's outer [except Exception] (the answer with status 500) is
    not reached. *)
Definition get_debug_logs (file : option (list string)) (last : Z)
    (q : filters) (include_summary : bool) : response :=
  match file with
  | None => NoLogsFound
  | Some lines =>
      let cutoff_time := cutoff_time_of q in
      let logs := scan last cutoff_time q (rev lines) [] in
      let logs := rev logs in
      Logs logs (length logs) q
           (if include_summary && negb (Nat.eqb (length logs) 0)
            then Some (_generate_log_summary logs) else None)
  end.

End Query.

Definition response_logs (r : response) : list entry :=
  match r with
  | NoLogsFound => []
  | Logs logs _ _ _ => logs
  end.

(** Timestamps are compared as the code compares them: as strings, a
    missing [ts] reading as the empty string. *)
Definition ts_le (a b : entry) : Prop :=
  String.le (get_str ts a) (get_str ts b).

(** The [n] newest elements of a list kept oldest first. *)
Definition newest {A} (n : nat) (l : list A) : list A :=
  drop (length l - n) l.

(** Slowest first. *)
Definition slower_first (a b : slow_item) : Prop :=
  (slow_duration_ms b <= slow_duration_ms a)%Q.

(** *** The request trace *)

Record request_trace := {
  rt_request_id : string;
  rt_logs : list entry;
  rt_count : nat;
  rt_modules_involved : gset string;
  rt_has_errors : bool;
  rt_total_duration_ms : Q
}.

Inductive trace_response :=
| TraceNoLogs (request_id : string)
| Trace (t : request_trace).

(** A value that is set and truthy. *)
Definition truthy_str (o : option string) : option string := supplied o.

Definition truthy_num (o : option Q) : option Q :=
  match o with
  | Some d => if Qeq_bool d 0 then None else Some d
  | None => None
  end.

Section Trace.

Variable loads : string -> option entry.

(** The loop [for line in f] of [get_request_trace]: lines that do not
    decode are passed over, entries whose request id contains [rid] are
    appended. *)
Definition trace_scan (rid : string) (lines : list string) : list entry :=
  fold_left
    (fun logs line =>
       match loads line with
       | Some e =>
           if Py.contains rid (get_str request_id e) then (logs ++ [e])%list
           else logs
       | None => logs
       end) lines [].

(** [get_request_trace(request_id)].  The set of modules is a Python set
    turned into a list, in no fixed order: it is kept as a set.  The sum of
    the durations is taken on exact rationals. *)
Definition get_request_trace (file : option (list string)) (rid : string)
  : trace_response :=
  match file with
  | None => TraceNoLogs rid
  | Some lines =>
      let logs := trace_scan rid lines in
      Trace {| rt_request_id := rid;
               rt_logs := logs;
               rt_count := length logs;
               rt_modules_involved :=
                 list_to_set (omap (fun log => truthy_str (module log)) logs);
               rt_has_errors := Py.any is_error logs;
               rt_total_duration_ms :=
                 fold_left Qplus
                   (omap (fun log => truthy_num (duration_ms log)) logs) 0%Q |}
  end.

End Trace.

Definition trace_logs (r : trace_response) : list entry :=
  match r with
  | TraceNoLogs _ => []
  | Trace t => rt_logs t
  end.

(** The query that filters on the request id alone. *)
Definition by_request_id (rid : string) : filters :=
  {| f_level := None; f_request_id := Some rid; f_module := None;
     f_search := None; f_since_minutes := None |}.

(** *** Frontend events *)

Record FrontendLogEntry := {
  fe_level : string;
  fe_message : string;
  fe_context : option SharedLogging.py_dict;
  fe_url : option string;
  fe_user_agent : option string;
  fe_session_id : option string;
  fe_timestamp : option string
}.

(** [any(s in k.lower() for s in ['password', 'token', 'key', 'secret'])]. *)
Definition frontend_sensitive (k : string) : bool :=
  Py.any (fun s => Py.contains s (Py.lower k))
         ["password"; "token"; "key"; "secret"].

(** The comprehension that builds [safe_context]. *)
Definition safe_context (context : SharedLogging.py_dict)
  : SharedLogging.py_dict :=
  List.filter (fun kv => negb (frontend_sensitive (fst kv))) context.

(** The method of the logger the event is sent to. *)
Definition frontend_level (level_ : string) : SharedLogging.level :=
  if String.eqb level_ "error" || String.eqb level_ "critical"
  then SharedLogging.ERROR
  else if String.eqb level_ "warning" || String.eqb level_ "warn"
  then SharedLogging.WARNING
  else if String.eqb level_ "info" then SharedLogging.INFO
  else SharedLogging.DEBUG.

Record frontend_response := {
  fr_status : string;
  fr_level : string
}.

Section Frontend.

(** [json.dumps(safe_context)]; on a context decoded from a JSON body it
    does not fail, so the handler's [except] branch (status 400) is not
    reached. *)
Variable json_dumps : SharedLogging.py_dict -> string.

Definition context_parts (e : FrontendLogEntry) : list string :=
  let parts : list string := [] in
  let parts :=
    match supplied (fe_session_id e) with
    | Some sid => (parts ++ [("session=" ++ sid)%string])%list
    | None => parts
    end in
  let parts :=
    match supplied (fe_url e) with
    | Some u => (parts ++ [("URL: " ++ u)%string])%list
    | None => parts
    end in
  match fe_context e with
  | Some (kv :: rest) =>
      (parts ++ [("Context: " ++ json_dumps (safe_context (kv :: rest)))%string])%list
  | _ => parts
  end.

Definition full_message (e : FrontendLogEntry) : string :=
  match context_parts e with
  | [] => fe_message e
  | parts => fe_message e ++ " | " ++ Py.join " | " parts
  end.

(** [log_frontend_event(log_entry)], with [name] the [__name__] of the
    module: the answer, the call made on the frontend logger, and the
    registry state. *)
Definition log_frontend_event (name : string) (e : FrontendLogEntry)
    (st : SharedLogging.logging_state)
  : frontend_response * SharedLogging.log_call * SharedLogging.logging_state :=
  let '(frontend_logger, st) := SharedLogging.get_frontend_logger name st in
  let level_ := Py.lower (fe_level e) in
  ({| fr_status := "logged"; fr_level := level_ |},
   {| SharedLogging.call_logger := frontend_logger;
      SharedLogging.call_level := frontend_level level_;
      SharedLogging.call_msg := full_message e;
      SharedLogging.call_extra :=
        {| SharedLogging.x_span_id := None; SharedLogging.x_span_op := None;
           SharedLogging.x_duration_ms := None;
           SharedLogging.x_log_context := None |};
      SharedLogging.call_exc_info := false |},
   st).

End Frontend.

End Main.

(** ** logs/ai_debug_summary.py *)

Module AiDebugSummary.
Import Jsonl.

Record recent_error := {
  re_ts : option string;
  re_module : option string;
  re_msg : string;
  re_exception : option string;
  re_request_id : option string
}.

Record error_analysis := {
  total_errors : nat;
  by_exception_type : list (string * Z);
  by_module : list (string * Z);
  recent_errors : list recent_error
}.

(** [error.get('exception', {}).get('type')]. *)
Definition exception_type (e : entry) : option string :=
  match exception e with
  | Some x => ex_type x
  | None => None
  end.

(** [x or 'Unknown'] on an optional string. *)
Definition or_unknown (o : option string) : string :=
  match o with
  | Some s => if Py.truthy s then s else "Unknown"
  | None => "Unknown"
  end.

Definition analyze_errors (logs : list entry) : error_analysis :=
  let errors := List.filter is_error logs in
  {| total_errors := length errors;
     by_exception_type :=
       fold_left (fun d e => dict_incr (or_unknown (exception_type e)) d)
                 errors [];
     by_module :=
       fold_left (fun d e => dict_incr (default "Unknown" (module e)) d)
                 errors [];
     recent_errors :=
       map (fun e =>
              {| re_ts := ts e; re_module := module e;
                 re_msg := Py.str_take 150 (get_str msg e);
                 re_exception := exception_type e;
                 re_request_id := request_id e |})
           (Py.slice_from (-10) errors) |}.

(** Rounding of a non-negative rational to the nearest integer, ties to
    even. *)
Definition round_half_even (q : Q) : Z :=
  let f := Qfloor q in
  let r := (q - inject_Z f)%Q in
  match Qcompare r (1 # 2) with
  | Lt => f
  | Gt => f + 1
  | Eq => if Z.even f then f else f + 1
  end.

(** The format [{error_rate:.1%}]: the rate times 100 with one decimal and
    a percent sign.  The rate is kept as an exact rational; Python holds it
    in a double, which agrees with this rendering except on rates whose
    second decimal of the percentage is an exact tie. *)
Definition format_percent_1 (rate : Q) : string :=
  let tenths := round_half_even (rate * inject_Z 1000)%Q in
  pretty (tenths / 10) ++ "." ++ pretty (tenths mod 10) ++ "%".

Record overview := {
  total_logs : nat;
  unique_requests : nat;
  error_rate : string
}.

Inductive summary :=
| NO_LOGS (message : string)
| Summary (status : string)
          (time_range : option string * option string)
          (overview_ : overview)
          (level_distribution module_distribution : list (string * Z))
          (errors : error_analysis).

(** The [status] and [overview.error_rate] entries of a summary. *)
Definition status_of (s : summary) : option string :=
  match s with
  | NO_LOGS _ => Some "NO_LOGS"
  | Summary status _ _ _ _ _ => Some status
  end.

Definition error_rate_of (s : summary) : option string :=
  match s with
  | NO_LOGS _ => None
  | Summary _ _ o _ _ _ => Some (error_rate o)
  end.

(** [total_errors / len(logs)], for a non-empty [logs]. *)
Definition rate_of (errors total : nat) : Q :=
  (Z.of_nat errors # Pos.of_nat total).

(** The health thresholds.  The comparisons with the literals 0.1 and 0.05
    are taken on the exact rate; they agree with the comparisons of doubles
    for any number of records a file can hold. *)
Definition health (error_rate : Q) (total_errors : nat) : string :=
  if negb (Qle_bool error_rate (1 # 10)) then "CRITICAL"
  else if negb (Qle_bool error_rate (1 # 20)) then "WARNING"
  else if (0 <? total_errors)%nat then "DEGRADED"
  else "HEALTHY".

Section Summary.

(** [loads line] is [json.loads(line.strip())], [None] for a
    [json.JSONDecodeError]; [cutoff_of h] is
    [(datetime.utcnow() - timedelta(hours=h)).isoformat() + "Z"]. *)
Variable loads : string -> option entry.
Variable cutoff_of : Z -> string.

(** [parse_logs(hours, errors_only)] on the lines of application.jsonl
    ([None] when the file does not exist). *)
Definition parse_logs (file : option (list string)) (hours : Z)
    (errors_only : bool) : list entry :=
  match file with
  | None => []
  | Some lines =>
      let cutoff_str := cutoff_of hours in
      omap (fun line =>
              match loads line with
              | Some e =>
                  if String.leb cutoff_str (get_str ts e)
                  then if errors_only && negb (is_error e) then None
                       else Some e
                  else None
              | None => None
              end) lines
  end.

(** [generate_summary(hours)].  The fields [performance], [suggestions] and
    [quick_commands] of the result are computed independently of the ones
    kept here. *)
Definition generate_summary (file : option (list string)) (hours : Z)
  : summary :=
  let logs := parse_logs file hours false in
  match logs with
  | [] => NO_LOGS ("No logs found in the last " ++ pretty hours ++ " hours")
  | _ =>
      let error_analysis := analyze_errors logs in
      let error_rate := rate_of (total_errors error_analysis) (length logs) in
      Summary (health error_rate (total_errors error_analysis))
              (head logs ≫= ts, last logs ≫= ts)
              {| total_logs := length logs;
                 unique_requests := length (request_ids logs);
                 error_rate := format_percent_1 error_rate |}
              (count_by level logs) (count_by module logs)
              error_analysis
  end.

End Summary.

(** [key in d]. *)
Definition has_key {V} (k : string) (d : list (string * V)) : bool :=
  match Py.dict_get k d with
  | Some _ => true
  | None => false
  end.

(** [if cond: suggestions.append(x)]. *)
Definition append_if (cond : bool) (x : string) (suggestions : list string)
  : list string :=
  if cond then (suggestions ++ [x])%list else suggestions.

Definition suggest_investigations (error_analysis_ : error_analysis)
  : list string :=
  if (total_errors error_analysis_ =? 0)%nat
  then ["No errors found - system appears healthy"]
  else
    let exc_types := by_exception_type error_analysis_ in
    let modules := by_module error_analysis_ in
    let suggestions : list string := [] in
    let suggestions :=
      append_if (10 <? total_errors error_analysis_)%nat
        ("HIGH: " ++ pretty (total_errors error_analysis_)
           ++ " errors detected - investigate immediately") suggestions in
    let suggestions :=
      append_if (has_key "ConnectionError" exc_types
                 || has_key "TimeoutError" exc_types)
        "Network/connection issues detected - check external service availability"
        suggestions in
    let suggestions :=
      append_if (has_key "DatabaseError" exc_types
                 || has_key "OperationalError" exc_types)
        "Database errors detected - check connection pool and query performance"
        suggestions in
    let suggestions :=
      append_if (has_key "ValidationError" exc_types
                 || has_key "ValueError" exc_types)
        "Validation errors detected - check input data format and constraints"
        suggestions in
    let suggestions :=
      append_if (has_key "KeyError" exc_types
                 || has_key "AttributeError" exc_types)
        "Data structure errors detected - check for None values or missing fields"
        suggestions in
    let suggestions :=
      append_if (has_key "HTTPException" exc_types)
        "HTTP errors detected - check API endpoints and request handling"
        suggestions in
    let suggestions :=
      append_if (match Py.dict_get "FRONTEND" modules with
                 | Some n => 3 <? n
                 | None => false
                 end)
        ("Frontend has " ++ pretty (default 0 (Py.dict_get "FRONTEND" modules))
           ++ " errors - check browser console for details") suggestions in
    let suggestions :=
      append_if (match Py.dict_get "DATABASE" modules with
                 | Some n => 0 <? n
                 | None => false
                 end)
        "Database module errors - check connection and query syntax"
        suggestions in
    match suggestions with
    | [] => ["Review recent errors for patterns"]
    | _ => suggestions
    end.

(** The suggestion made when there is no error. *)
Definition healthy_message : string :=
  "No errors found - system appears healthy".

End AiDebugSummary.

(** ** logs/view_logs.py *)

Module ViewLogs.
Import Jsonl.

Definition ESC : string := String (ascii_of_nat 27) EmptyString.

Definition COLORS (key : string) : option string :=
  if String.eqb key "ERROR" then Some (ESC ++ "[91m")
  else if String.eqb key "WARNING" then Some (ESC ++ "[93m")
  else if String.eqb key "INFO" then Some (ESC ++ "[92m")
  else if String.eqb key "DEBUG" then Some (ESC ++ "[94m")
  else if String.eqb key "RESET" then Some (ESC ++ "[0m")
  else if String.eqb key "BOLD" then Some (ESC ++ "[1m")
  else if String.eqb key "DIM" then Some (ESC ++ "[2m")
  else None.

Definition colorize (text level : string) : string :=
  default "" (COLORS level) ++ text ++ ESC ++ "[0m".

(** [f"{s:8}"]: left-aligned in a field of eight characters. *)
Definition pad8 (s : string) : string :=
  s ++ string_of_list_ascii
         (repeat " "%char (8 - String.length s)%nat).

Section View.

Variable loads : string -> option entry.
(** The format [{duration:.0f}] of the Python runtime. *)
Variable format_0f : Q -> string.

Definition format_entry (e : entry) : string :=
  let ts_ := Py.str_take 19 (get_str ts e) in
  let lvl := default "INFO" (level e) in
  let module_ := default "MAIN" (module e) in
  let req_id := Py.str_take 8 (default "----" (request_id e)) in
  let msg_ := get_str msg e in
  let msg_ :=
    match duration_ms e with
    | Some d =>
        if negb (Qeq_bool d 0) then msg_ ++ " [" ++ format_0f d ++ "ms]"
        else msg_
    | None => msg_
    end in
  let line :=
    ts_ ++ " | " ++ pad8 lvl ++ " | [" ++ module_ ++ "] | " ++ req_id
        ++ " | " ++ msg_ in
  colorize line lvl.

Definition should_include (level_ request_id_ search : option string)
    (e : entry) : bool :=
  if match Main.supplied level_ with
     | Some l => negb (String.eqb (Py.upper (get_str level e)) (Py.upper l))
     | None => false
     end then false
  else if match Main.supplied request_id_ with
     | Some r => negb (Py.contains r (get_str request_id e))
     | None => false
     end then false
  else if match Main.supplied search with
     | Some s => negb (Py.contains (Py.lower s) (Py.lower (get_str msg e)))
     | None => false
     end then false
  else true.

(** The entries [view_json_logs] selects when [follow] is off: the window
    [all_lines[-lines * 2:]] is decoded and filtered, then
    [entries[-lines:]] is kept. *)
Definition selected_entries (all_lines : list string) (lines : Z)
    (level_ request_id_ search : option string) : list entry :=
  let entries :=
    omap (fun line =>
            match loads line with
            | Some e =>
                if should_include level_ request_id_ search e then Some e
                else None
            | None => None
            end) (Py.slice_from (- lines * 2) all_lines) in
  Py.slice_from (- lines) entries.

(** [view_json_logs(lines, level, request_id, search, follow=False)]: the
    lines printed. *)
Definition view_json_logs (file : option (list string)) (lines : Z)
    (level_ request_id_ search : option string) : list string :=
  match file with
  | None => ["JSON log file not found: logs/application.jsonl"]
  | Some all_lines =>
      map format_entry
          (selected_entries all_lines lines level_ request_id_ search)
  end.

End View.

(** The query of the API that a call of the viewer corresponds to. *)
Definition viewer_query (level_ request_id_ search : option string)
  : Main.filters :=
  {| Main.f_level := level_; Main.f_request_id := request_id_;
     Main.f_module := None; Main.f_search := search;
     Main.f_since_minutes := None |}.

(** *** The plain-text log *)

(** The three tests of [print_filtered_lines]. *)
Definition text_include (level_ request_id_ search : option string)
    (line : string) : bool :=
  if match Main.supplied level_ with
     | Some l => negb (Py.contains ("| " ++ l) (Py.upper line))
     | None => false
     end then false
  else if match Main.supplied request_id_ with
     | Some r => negb (Py.contains r line)
     | None => false
     end then false
  else if match Main.supplied search with
     | Some s => negb (Py.contains (Py.lower s) (Py.lower line))
     | None => false
     end then false
  else true.

(** The loop [for lvl in ['ERROR', 'WARNING', 'INFO', 'DEBUG']] with its
    [break]. *)
Fixpoint colorize_line (lvls : list string) (line : string) : string :=
  match lvls with
  | [] => line
  | lvl :: rest =>
      if Py.contains ("| " ++ lvl) line then colorize (Py.rstrip line) lvl
      else colorize_line rest line
  end.

(** [print_filtered_lines(content)]: the strings handed to [print]. *)
Definition print_filtered_lines (level_ request_id_ search : option string)
    (content : list string) : list string :=
  map (colorize_line ["ERROR"; "WARNING"; "INFO"; "DEBUG"])
      (List.filter (text_include level_ request_id_ search) content).

(** [view_text_logs(lines, level, request_id, search, follow=False)] on the
    lines of application.log ([None] when the file does not exist). *)
Definition view_text_logs (file : option (list string)) (lines : Z)
    (level_ request_id_ search : option string) : list string :=
  match file with
  | None => ["Log file not found: logs/application.log"]
  | Some all_lines =>
      print_filtered_lines level_ request_id_ search
                           (Py.slice_from (- lines) all_lines)
  end.

End ViewLogs.

(** ** Sample inputs *)

Module Samples.
Import Jsonl SharedLogging.

Definition sample_entry (t l : string) : entry :=
  {| ts := Some t; Jsonl.level := Some l; module := Some "BACKEND";
     request_id := Some "r1"; msg := Some "m"; span_op := None;
     duration_ms := None; exception := None |}.

(** A stand-in decoder for examples: a line "E<ts>" is an ERROR record
    with that timestamp, a line "I<ts>" an INFO record, any other line does
    not decode. *)
Definition sample_loads (line : string) : option entry :=
  match line with
  | String "E" t => Some (sample_entry t "ERROR")
  | String "I" t => Some (sample_entry t "INFO")
  | _ => None
  end.

Definition no_filters : Main.filters :=
  {| Main.f_level := None; Main.f_request_id := None; Main.f_module := None;
     Main.f_search := None; Main.f_since_minutes := None |}.

Definition ValueError : py_exception :=
  {| exc_type := "ValueError"; exc_str := "bad input";
     exc_is_Exception := true |}.

Definition KeyboardInterrupt : py_exception :=
  {| exc_type := "KeyboardInterrupt"; exc_str := "";
     exc_is_Exception := false |}.

(** A body that raises [e] at once. *)
Definition raising (e : py_exception) (_ : string) (st : logging_state)
  : run unit :=
  {| run_calls := []; run_outcome := Raised e; run_state := st |}.

Definition sample_emission : emission :=
  {| em_created := 0; em_utcnow := "2024-01-01T00:00:00";
     em_filename := "main.py"; em_lineno := 1; em_funcName := "f";
     em_handled := Some (ValueError, "Traceback"); em_import_ok := true;
     em_context := Some "r1" |}.

End Samples.

(** ** Statements about spans, redaction and malformed lines *)

Module Statements.
Import SharedLogging.

(** A failing span, as the tracer is described: around the calls
    [body_calls] of the body, the span makes one SPAN_START call and one
    SPAN_ERROR call and no other; the error call carries the span id of the
    start call, a duration, and the context merged with the error message
    and type; the exception [e] of the body is the outcome. *)
Definition failing_span {A} (context : py_dict) (e : py_exception)
    (body_calls : list log_call) (r : run A) : Prop :=
  exists span_start span_error,
    run_calls r = (span_start :: body_calls ++ [span_error])%list /\
    span_kind_of span_start = Some SpanStart /\
    span_kind_of span_error = Some SpanError /\
    call_level span_start = INFO /\
    call_level span_error = ERROR /\
    is_Some (x_span_id (call_extra span_start)) /\
    x_span_id (call_extra span_error) = x_span_id (call_extra span_start) /\
    is_Some (x_duration_ms (call_extra span_error)) /\
    (exists merged,
       x_log_context (call_extra span_error) = Some (VDict merged) /\
       Py.dict_get "error" merged = Some (VStr (exc_str e)) /\
       Py.dict_get "error_type" merged = Some (VStr (exc_type e)) /\
       forall k, k <> "error" -> k <> "error_type" ->
                 Py.dict_get k merged = Py.dict_get k context) /\
    run_outcome r = Raised e.

(** Redaction of the locals [f_locals] in a written object: every local
    with a sensitive name is a key of the [locals] map, with the marker as
    its value. *)
Definition redacted (f_locals : list (string * option string))
    (line : py_dict) : Prop :=
  forall k v, In (k, v) f_locals -> is_sensitive k = true ->
    exists d, line_locals line = Some d /\
              Py.dict_get k d = Some (VStr "[REDACTED]").

(** Every decoded entry of [lines] that passes the filters is in the
    answer. *)
Definition all_matching_returned (loads : string -> option Jsonl.entry)
    (cutoff_time : option string) (q : Main.filters) (lines : list string)
    (answer : Main.response) : Prop :=
  forall e, In e (omap loads lines) -> Main.keep cutoff_time q e = true ->
            In e (Main.response_logs answer).

End Statements.

(** * Properties *)

(** ** Dictionaries *)

Lemma dict_get_set_eq {V} k (v : V) d :
  Py.dict_get k (Py.dict_set k v d) = Some v.
Proof.
  induction d as [|[k' v'] r IH]; simpl.
  - now rewrite String.eqb_refl.
  - destruct (String.eqb k k') eqn:E; simpl; rewrite E; auto.
Qed.

Lemma dict_get_set_ne {V} k k' (v : V) d :
  k <> k' -> Py.dict_get k' (Py.dict_set k v d) = Py.dict_get k' d.
Proof.
  intros Hne. induction d as [|[k0 v0] r IH]; simpl.
  - destruct (String.eqb k' k) eqn:E; auto.
    apply String.eqb_eq in E. congruence.
  - destruct (String.eqb k k0) eqn:E; simpl.
    + apply String.eqb_eq in E. subst k0.
      destruct (String.eqb k' k) eqn:E'; auto.
      apply String.eqb_eq in E'. congruence.
    + now rewrite IH.
Qed.

(** A lookup survives a filter that keeps the binding it finds. *)
Lemma dict_get_filter {V} (p : string * V -> bool) k v d :
  Py.dict_get k d = Some v -> p (k, v) = true ->
  Py.dict_get k (List.filter p d) = Some v.
Proof.
  induction d as [|[k0 v0] r IH]; simpl; [discriminate|].
  intros Hget Hp. destruct (String.eqb k k0) eqn:E.
  - apply String.eqb_eq in E. subst k0. injection Hget as ->.
    rewrite Hp. simpl. now rewrite String.eqb_refl.
  - destruct (p (k0, v0)); simpl; [rewrite E|]; auto.
Qed.

(** ** The correlation context *)

Section RequestIdFacts.
Import RequestId SharedLogging.

(** An id that was set and is not empty is read back. *)
Lemma get_request_id_set rid ctx :
  rid <> "" -> get_request_id (set rid ctx) = rid.
Proof.
  intros Hne. unfold get_request_id, set, Py.truthy.
  destruct (String.eqb rid "") eqn:E; [|reflexivity].
  apply String.eqb_eq in E. contradiction.
Qed.

(** The read operation is total and never yields the empty string. *)
Lemma get_request_id_truthy ctx : Py.truthy (get_request_id ctx) = true.
Proof.
  destruct ctx as [rid|]; simpl; [|reflexivity].
  destruct (Py.truthy rid) eqn:E; [exact E | reflexivity].
Qed.

(** C1: in a context where no correlation id was set, [get_request_id]
    returns without failing, and what it returns is the string
    "no-request-id": it is not the placeholder "----" that the filter falls
    back to and that the summaries leave out of the request count. *)
Theorem get_request_id_unset :
  get_request_id _request_id_context_default = "no-request-id" /\
  get_request_id _request_id_context_default <> "----".
Proof. split; [reflexivity | discriminate]. Qed.

(** With the middleware importable, a record emitted outside any request
    carries "no-request-id"; the placeholder appears only when the import
    fails. *)
Lemma RequestIDFilter_unset r :
  rec_request_id (RequestIDFilter_filter true None r) = Some "no-request-id" /\
  rec_request_id (RequestIDFilter_filter false None r) = Some "----".
Proof. split; reflexivity. Qed.

End RequestIdFacts.

(** The readers count "no-request-id" as a request, and not "----". *)
Lemma request_ids_placeholder (e : Jsonl.entry) :
  (Jsonl.request_id e = Some "no-request-id" ->
     Jsonl.request_ids [e] = ["no-request-id"]) /\
  (Jsonl.request_id e = Some "----" -> Jsonl.request_ids [e] = []).
Proof.
  split; intros H; unfold Jsonl.request_ids; simpl; rewrite H; reflexivity.
Qed.

(** ** The sink layer and the logger registry *)

Section RegistryFacts.
Import SharedLogging.

Lemma setup_initialized l c st :
  _initialized (setup_centralized_logging l c st) = true.
Proof.
  unfold setup_centralized_logging.
  destruct (_initialized st) eqn:E; [exact E | reflexivity].
Qed.

Lemma setup_noop l c st :
  _initialized st = true -> setup_centralized_logging l c st = st.
Proof. intros H. unfold setup_centralized_logging. now rewrite H. Qed.

(** What a first initialisation installs on the root logger. *)
Lemma setup_handlers l c st :
  _initialized st = false ->
  root_handlers (setup_centralized_logging l c st) =
    ((if c then [console_handler (logging_level_attr (Py.upper l))] else [])
       ++ [main_handler; error_handler; json_handler])%list.
Proof.
  intros H. unfold setup_centralized_logging. rewrite H.
  destruct c; reflexivity.
Qed.

Lemma setup_sinks_NoDup l c st :
  _initialized st = false ->
  List.NoDup (map h_sink (root_handlers (setup_centralized_logging l c st))).
Proof.
  intros H. rewrite (setup_handlers l c st H).
  destruct c; simpl;
    repeat (apply List.NoDup_cons; [simpl; intuition discriminate|]);
    apply List.NoDup_nil.
Qed.

Lemma NoDup_map_filter {A B} (f : A -> B) (p : A -> bool) (l : list A) :
  List.NoDup (map f l) -> List.NoDup (map f (List.filter p l)).
Proof.
  induction l as [|a l IH]; simpl; intros Hnd; [apply List.NoDup_nil|].
  inversion Hnd as [|? ? Hnotin Hnd']; subst.
  destruct (p a); simpl; auto.
  apply List.NoDup_cons; auto.
  intros Hin. apply Hnotin.
  apply in_map_iff in Hin as (x & Hx & Hin).
  apply in_map_iff. exists x. split; auto.
  apply filter_In in Hin. tauto.
Qed.

(** A call after the first one returns the state as it is, whatever its
    arguments. *)
Lemma setup_centralized_logging_idempotent st l1 c1 l2 c2 :
  setup_centralized_logging l2 c2 (setup_centralized_logging l1 c1 st) =
  setup_centralized_logging l1 c1 st.
Proof. apply setup_noop. apply setup_initialized. Qed.



(** The cache: acquiring the same (module, name) again returns the handle
    of the first acquisition and leaves the registry as it is. *)
Lemma get_logger_cached name module st :
  get_logger name module (get_logger name module st).2 =
  get_logger name module st.
Proof.
  unfold get_logger.
  set (st0 := if _initialized st then st
              else setup_centralized_logging "INFO" true st).
  assert (Hi : _initialized st0 = true).
  { subst st0. destruct (_initialized st) eqn:E; [exact E|].
    apply setup_initialized. }
  destruct (_loggers st0 !! (module ++ ":" ++ name)) as [lg|] eqn:Hl; simpl.
  - rewrite Hi. now rewrite Hl.
  - unfold cache_logger, addFilter; simpl. rewrite Hi; simpl.
    rewrite lookup_insert_eq. reflexivity.
Qed.

(** A first acquisition under a new module tag appends its filter to the
    logger of that name: from then on every record of that logger is tagged
    with the new module, whatever was attached before. *)
Lemma get_logger_retags name module st r :
  let st0 := if _initialized st then st
             else setup_centralized_logging "INFO" true st in
  _loggers st0 !! (module ++ ":" ++ name) = None ->
  let '(h, s') := get_logger name module st in
  h = getLogger name /\
  rec_module_tag (logger_filter h s' r) = Some module.
Proof.
  intros st0 Hnone. unfold get_logger. fold st0. rewrite Hnone.
  split; [reflexivity|].
  unfold logger_filter, cache_logger, addFilter. simpl.
  rewrite lookup_insert_eq. simpl.
  rewrite fold_left_app. reflexivity.
Qed.

(** C8: the handle [get_logger] returns is the logger object of that
    name, shared by every module tag.  After
    [get_logger("backend.main", "BACKEND")] the records of the handle are
    tagged BACKEND; once [get_logger("backend.main", "FRONTEND")] has run
    (as [get_frontend_logger] does), the same handle tags its records
    FRONTEND: the tag of the first acquisition is not kept. *)
Theorem get_logger_tag_overwritten r :
  let '(h1, s1) := get_logger "backend.main" "BACKEND" initial_state in
  let '(h2, s2) := get_frontend_logger "backend.main" s1 in
  h2 = h1 /\
  rec_module_tag (logger_filter h1 s1 r) = Some "BACKEND" /\
  rec_module_tag (logger_filter h1 s2 r) = Some "FRONTEND".
Proof. vm_compute. repeat split. Qed.

End RegistryFacts.

(** ** Operation spans *)

Section SpanFacts.
Import SharedLogging Statements.

Variable json_dumps : py_dict -> string.
Variable format_2f : Q -> string.

(** The logger of a span and the state its body starts from. *)
Lemma log_span_entry (logger : option string) st :
  (match logger with
   | Some l => (l, st)
   | None => get_logger "shared_logging" "SPAN" st
   end).2 = span_entry_state logger st.
Proof. destruct logger; reflexivity. Qed.

(** Opens [log_span] on the logger it writes to and on the state its body
    starts from. *)
Ltac open_span logger st :=
  unfold log_span;
  rewrite <- (log_span_entry logger st) in *;
  destruct (match logger with
            | Some l => (l, st)
            | None => get_logger "shared_logging" "SPAN" st
            end) as [? ?]; simpl in *.

(** The merged context of the error record. *)
Lemma merged_context (context : py_dict) e :
  let merged :=
    Py.dict_set "error_type" (VStr (exc_type e))
      (Py.dict_set "error" (VStr (exc_str e)) context) in
  Py.dict_get "error" merged = Some (VStr (exc_str e)) /\
  Py.dict_get "error_type" merged = Some (VStr (exc_type e)) /\
  forall k, k <> "error" -> k <> "error_type" ->
            Py.dict_get k merged = Py.dict_get k context.
Proof.
  intros merged. subst merged. split; [|split].
  - rewrite dict_get_set_ne by discriminate. apply dict_get_set_eq.
  - apply dict_get_set_eq.
  - intros k H1 H2. rewrite !dict_get_set_ne; congruence.
Qed.

(** C2, amended: when the body of a span raises an exception that is an
    instance of [Exception], the span makes exactly the SPAN_START call
    before the body and the SPAN_ERROR call after it, and no SPAN_END call;
    the error call carries the span id of the start call, a duration and
    the context merged with the error message and type; the same exception
    is the outcome of the statement. *)
Theorem log_span_failing {A} operation logger context span_id t0 t1
    (body : string -> logging_state -> run A) st e :
  run_outcome (body span_id (span_entry_state logger st)) = Raised e ->
  exc_is_Exception e = true ->
  failing_span context e
    (run_calls (body span_id (span_entry_state logger st)))
    (log_span json_dumps format_2f operation logger context span_id t0 t1
              body st).
Proof.
  intros Hout Hexc. open_span logger st.
  rewrite Hout, Hexc.
  eexists _, _. split; [reflexivity|].
  split; [reflexivity|]. split; [reflexivity|].
  split; [reflexivity|]. split; [reflexivity|].
  split; [simpl; eauto|]. split; [reflexivity|].
  split; [simpl; eauto|]. split; [|reflexivity].
  eexists. split; [reflexivity|]. apply merged_context.
Qed.

(** A body that returns: the span closes with SPAN_END and makes no
    SPAN_ERROR call. *)
Lemma log_span_returning {A} operation logger context span_id t0 t1
    (body : string -> logging_state -> run A) st a :
  run_outcome (body span_id (span_entry_state logger st)) = Returned a ->
  let r := log_span json_dumps format_2f operation logger context span_id
                    t0 t1 body st in
  exists span_start span_end,
    run_calls r =
      (span_start
         :: run_calls (body span_id (span_entry_state logger st))
         ++ [span_end])%list /\
    span_kind_of span_start = Some SpanStart /\
    span_kind_of span_end = Some SpanEnd /\
    x_span_id (call_extra span_end) = Some span_id /\
    run_outcome r = Returned a.
Proof.
  intros Hout. open_span logger st.
  rewrite Hout. eexists _, _. repeat split.
Qed.

(** An exception outside [Exception] passes through the generator: the
    start call stays alone. *)
Lemma log_span_passing {A} operation logger context span_id t0 t1
    (body : string -> logging_state -> run A) st e :
  run_outcome (body span_id (span_entry_state logger st)) = Raised e ->
  exc_is_Exception e = false ->
  let r := log_span json_dumps format_2f operation logger context span_id
                    t0 t1 body st in
  exists span_start,
    run_calls r =
      span_start :: run_calls (body span_id (span_entry_state logger st)) /\
    span_kind_of span_start = Some SpanStart /\
    run_outcome r = Raised e.
Proof.
  intros Hout Hexc. open_span logger st.
  rewrite Hout, Hexc. eexists. repeat split.
Qed.

End SpanFacts.

Section SpanExamples.
Import SharedLogging Statements Samples.

Lemma log_span_failing_witness :
  failing_span [("order_id", VInt 123)] ValueError []
    (log_span (fun _ => "{}") (fun _ => "0.00") "process_order" None
              [("order_id", VInt 123)] "ab12cd34" 0 1
              (raising ValueError) initial_state).
Proof.
  apply (log_span_failing (fun _ => "{}") (fun _ => "0.00") "process_order"
           None [("order_id", VInt 123)] "ab12cd34" 0 1
           (raising ValueError) initial_state ValueError);
    reflexivity.
Defined.

(** C2 as stated fails on an exception that is not an [Exception]: with a
    body that raises [KeyboardInterrupt], the span makes the SPAN_START call
    and nothing else. *)
Lemma log_span_KeyboardInterrupt :
  ~ failing_span [] KeyboardInterrupt []
      (log_span (fun _ => "{}") (fun _ => "0.00") "process_order"
                (Some "app") [] "ab12cd34" 0 1
                (raising KeyboardInterrupt) initial_state).
Proof.
  intros (s & e & Hcalls & _). simpl in Hcalls. discriminate Hcalls.
Qed.

End SpanExamples.

(** ** Exception context *)

Section RedactionFacts.
Import SharedLogging Statements.

Lemma capture_local_other max acc k k' v :
  k' <> k ->
  Py.dict_get k (capture_local max acc (k', v)) = Py.dict_get k acc.
Proof.
  intros Hne. unfold capture_local.
  destruct (Py.startswith "_" k'); [reflexivity|].
  destruct (is_sensitive k'); [now apply dict_get_set_ne|].
  destruct v; now apply dict_get_set_ne.
Qed.

Lemma capture_local_redacts max acc k v :
  Py.startswith "_" k = false -> is_sensitive k = true ->
  Py.dict_get k (capture_local max acc (k, v)) = Some (VStr "[REDACTED]").
Proof.
  intros Hpub Hsens. unfold capture_local. rewrite Hpub, Hsens.
  apply dict_get_set_eq.
Qed.

(** A private local is skipped, whatever its name says. *)
Lemma capture_local_private max acc k v :
  Py.startswith "_" k = true -> capture_local max acc (k, v) = acc.
Proof. intros H. unfold capture_local. now rewrite H. Qed.

(** The loop invariant: once a public sensitive name is redacted it stays
    so, and it gets redacted when the loop meets it. *)
Lemma fold_capture_redacted max f_locals :
  forall acc k,
    Py.startswith "_" k = false -> is_sensitive k = true ->
    (Py.dict_get k acc = Some (VStr "[REDACTED]") \/
     exists v, In (k, v) f_locals) ->
    Py.dict_get k (fold_left (capture_local max) f_locals acc)
      = Some (VStr "[REDACTED]").
Proof.
  induction f_locals as [|[k' v'] r IH];
    intros acc k Hpub Hsens [Hacc | [v Hin]]; cbn [fold_left].
  - exact Hacc.
  - destruct Hin.
  - apply IH; auto. left.
    destruct (string_dec k' k) as [->|Hne].
    + now apply capture_local_redacts.
    + now rewrite capture_local_other.
  - destruct Hin as [Heq | Hin].
    + injection Heq as -> ->. apply IH; auto. left.
      now apply capture_local_redacts.
    + apply IH; auto. right. eauto.
Qed.

Lemma logger_filter_log_context lg st r :
  rec_log_context (logger_filter lg st r) = rec_log_context r.
Proof.
  unfold logger_filter.
  generalize (default [] (logger_filters st !! lg)). intros tags.
  revert r. induction tags as [|t tags IH]; intros r; simpl; [reflexivity|].
  now rewrite IH.
Qed.

Lemma RequestIDFilter_log_context ok ctx r :
  rec_log_context (RequestIDFilter_filter ok ctx r) = rec_log_context r.
Proof. destruct ok; reflexivity. Qed.

(** The handler writes the logging context of a record under [context]. *)
Lemma JSONLineHandler_emit_context utcnow r v :
  rec_log_context r = Some v -> is_VNone v = false ->
  Py.dict_get "context" (JSONLineHandler_emit utcnow r) = Some v.
Proof.
  intros H Hv. unfold JSONLineHandler_emit.
  apply dict_get_filter; [|simpl; now rewrite Hv].
  destruct (rec_exc_info r) as [[e tb]|].
  - rewrite dict_get_set_ne by discriminate. simpl. now rewrite H.
  - simpl. now rewrite H.
Qed.


End RedactionFacts.

Section RedactionExamples.
Import SharedLogging Statements Samples.



End RedactionExamples.

(** ** The query engine *)

Section SortedFacts.
Context {A : Type} (R : A -> A -> Prop).

Lemma StronglySorted_filter (p : A -> bool) l :
  StronglySorted R l -> StronglySorted R (List.filter p l).
Proof.
  induction 1 as [|a l Hs IH Hall]; simpl; [constructor|].
  destruct (p a); [|exact IH].
  constructor; [exact IH|].
  rewrite List.Forall_forall in *. intros x Hx.
  apply Hall. apply filter_In in Hx. tauto.
Qed.

Lemma StronglySorted_drop n l :
  StronglySorted R l -> StronglySorted R (drop n l).
Proof.
  revert l. induction n as [|n IH]; intros l Hs; [exact Hs|].
  destruct l as [|a l]; [exact Hs|].
  simpl. apply IH. now inversion Hs.
Qed.

End SortedFacts.

Lemma omap_rev {A B} (f : A -> option B) l :
  omap f (rev l) = rev (omap f l).
Proof.
  induction l as [|a l IH]; [reflexivity|].
  simpl rev. rewrite omap_app, IH. simpl.
  destruct (f a); simpl; [reflexivity | now rewrite app_nil_r].
Qed.

Lemma ts_le_trans : Transitive Main.ts_le.
Proof.
  intros a b c. unfold Main.ts_le. intros H1 H2.
  now transitivity (Jsonl.get_str Jsonl.ts b).
Qed.

Section QueryFacts.
Import Jsonl Main Statements.

Variable loads : string -> option entry.
Variable cutoff_of : Z -> string.

(** The sequence of [continue] tests is the conjunction of the five
    filters. *)
Lemma keep_conjunction c q e :
  keep c q e =
  time_ok c e && level_ok q e && request_id_ok q e && module_ok q e
    && search_ok q e.
Proof.
  unfold keep, time_ok, level_ok, request_id_ok, module_ok, search_ok.
  destruct (supplied c); destruct (supplied (f_level q));
    destruct (supplied (f_request_id q)); destruct (supplied (f_module q));
    destruct (supplied (f_search q));
    repeat match goal with
           | |- context [String.ltb ?a ?b] => destruct (String.ltb a b)
           | |- context [String.eqb ?a ?b] => destruct (String.eqb a b)
           | |- context [Py.contains ?a ?b] => destruct (Py.contains a b)
           end; reflexivity.
Qed.

(** The loop appends, to what it has, the first matches of the lines it is
    given, up to [last] records in all. *)
Lemma scan_spec last c q rlines :
  forall logs,
    scan loads last c q rlines logs =
    (logs ++ take (Z.to_nat last - length logs)
                  (List.filter (keep c q) (omap loads rlines)))%list.
Proof.
  induction rlines as [|line rest IH]; intros logs; simpl.
  - now rewrite take_nil, app_nil_r.
  - destruct (Z.of_nat (length logs) >=? last) eqn:E.
    + apply Z.geb_le in E.
      replace (Z.to_nat last - length logs)%nat with 0%nat by lia.
      now rewrite app_nil_r.
    + rewrite Z.geb_leb in E. apply Z.leb_gt in E.
      destruct (loads line) as [e|]; [|apply IH].
      simpl. destruct (keep c q e) eqn:K; [|apply IH].
      rewrite IH, length_app. simpl.
      replace (Z.to_nat last - length logs)%nat
        with (S (Z.to_nat last - (length logs + 1)))%nat by lia.
      simpl. now rewrite <- app_assoc.
Qed.

(** The answer holds the newest [last] of the entries that pass the
    filters, oldest first. *)
Lemma get_debug_logs_newest lines last q incl :
  response_logs (get_debug_logs loads cutoff_of (Some lines) last q incl) =
  newest (Z.to_nat last)
         (List.filter (keep (cutoff_time_of cutoff_of q) q)
                      (omap loads lines)).
Proof.
  unfold get_debug_logs, newest. simpl.
  rewrite scan_spec. simpl. rewrite Nat.sub_0_r.
  rewrite omap_rev, filter_rev, firstn_rev. apply rev_involutive.
Qed.

Lemma newest_length {A} n (l : list A) : (length (newest n l) <= n)%nat.
Proof. unfold newest. rewrite length_drop. lia. Qed.

Lemma newest_all {A} n (l : list A) : (length l <= n)%nat -> newest n l = l.
Proof.
  intros H. unfold newest.
  replace (length l - n)%nat with 0%nat by lia. reflexivity.
Qed.

Lemma newest_In {A} n (l : list A) x : In x (newest n l) -> In x l.
Proof.
  unfold newest. intros H. rewrite <- (take_drop (length l - n) l).
  apply in_or_app. now right.
Qed.



End QueryFacts.

Section QueryExamples.
Import Jsonl Main Statements Samples.


(** The two newest records come back, oldest first. *)
Example get_debug_logs_two_newest :
  response_logs
    (get_debug_logs sample_loads (fun _ => "")
                    (Some ["I01"; "E02"; "oops"; "E03"]) 2 no_filters true)
  = [sample_entry "02" "ERROR"; sample_entry "03" "ERROR"].
Proof. reflexivity. Qed.

(** A negative limit yields no record. *)
Example get_debug_logs_negative_limit :
  response_logs
    (get_debug_logs sample_loads (fun _ => "")
                    (Some ["I01"; "E02"]) (-1) no_filters true) = [].
Proof. reflexivity. Qed.



End QueryExamples.

(** ** Summaries *)

Section SummaryFacts.
Import Jsonl Main Samples.

Lemma slice_to_take {A} (n : nat) (l : list A) :
  Py.slice_to (Z.of_nat n) l = take n l.
Proof.
  unfold Py.slice_to.
  destruct (Z.of_nat n <? 0) eqn:E; [apply Z.ltb_lt in E; lia|].
  destruct (Nat.le_gt_cases n (length l)) as [Hle|Hgt].
  - now rewrite Z.min_l, Nat2Z.id by lia.
  - rewrite Z.min_r, Nat2Z.id by lia.
    rewrite !firstn_all2; auto; lia.
Qed.

(** [recent_errors] holds the first five ERROR records in the order of the
    list it is given. *)
Lemma recent_errors_first_five logs :
  recent_errors (_generate_log_summary logs) =
  map error_item_of (take 5 (List.filter is_error logs)).
Proof.
  unfold _generate_log_summary. simpl.
  rewrite (slice_to_take 5). apply firstn_map.
Qed.

(** C7: on a chronological list with six ERROR records, [recent_errors]
    holds the five oldest ones; the most recent error, at "06", is left
    out. *)
Theorem recent_errors_are_oldest :
  let logs :=
    omap sample_loads ["E01"; "E02"; "I03"; "E03"; "E04"; "E05"; "E06"] in
  map err_ts (recent_errors (_generate_log_summary logs)) =
    [Some "01"; Some "02"; Some "03"; Some "04"; Some "05"] /\
  error_count (_generate_log_summary logs) = 6%nat.
Proof. split; reflexivity. Qed.

End SummaryFacts.

Section HealthFacts.
Import Jsonl AiDebugSummary.

Variable loads : string -> option entry.
Variable cutoff_of : Z -> string.

Lemma rate_of_pos errors total : (0 < rate_of errors total)%Q -> (0 < errors)%nat.
Proof. unfold rate_of, Qlt. simpl. lia. Qed.

Lemma rate_of_zero errors total : (rate_of errors total == 0)%Q -> errors = 0%nat.
Proof. unfold rate_of, Qeq. simpl. lia. Qed.

Lemma Qle_bool_false a b : Qle_bool a b = false <-> (b < a)%Q.
Proof.
  split; intros H.
  - apply Qnot_le_lt. intros H'. apply Qle_bool_iff in H'. congruence.
  - destruct (Qle_bool a b) eqn:E; [|reflexivity].
    apply Qle_bool_iff in E. exfalso. exact (Qlt_not_le _ _ H E).
Qed.

Lemma health_critical rate errors :
  (1 # 10 < rate)%Q -> health rate errors = "CRITICAL".
Proof.
  intros H. unfold health. apply Qle_bool_false in H. now rewrite H.
Qed.

Lemma health_warning rate errors :
  (1 # 20 < rate)%Q -> (rate <= 1 # 10)%Q -> health rate errors = "WARNING".
Proof.
  intros H1 H2. unfold health.
  apply Qle_bool_false in H1. apply Qle_bool_iff in H2.
  now rewrite H2, H1.
Qed.

Lemma health_low rate errors :
  (rate <= 1 # 20)%Q ->
  health rate errors = if (0 <? errors)%nat then "DEGRADED" else "HEALTHY".
Proof.
  intros H. unfold health.
  assert (H10 : Qle_bool rate (1 # 10) = true).
  { apply Qle_bool_iff. apply Qle_trans with (1 # 20); [exact H|].
    discriminate. }
  apply Qle_bool_iff in H. now rewrite H10, H.
Qed.

(** The thresholds on the rate. *)
Lemma health_thresholds errors total :
  let rate := rate_of errors total in
  ((1 # 10 < rate)%Q -> health rate errors = "CRITICAL") /\
  ((1 # 20 < rate)%Q -> (rate <= 1 # 10)%Q ->
     health rate errors = "WARNING") /\
  ((0 < rate)%Q -> (rate <= 1 # 20)%Q -> health rate errors = "DEGRADED") /\
  ((rate == 0)%Q -> health rate errors = "HEALTHY").
Proof.
  cbv zeta. split; [apply health_critical|].
  split; [apply health_warning|]. split.
  - intros Hpos Hle. rewrite health_low by exact Hle.
    apply rate_of_pos in Hpos. apply Nat.ltb_lt in Hpos. now rewrite Hpos.
  - intros Hz. rewrite health_low by (rewrite Hz; discriminate).
    apply rate_of_zero in Hz. now subst errors.
Qed.

(** Twelve errors in a hundred records. *)
Lemma rate_12_of_100 :
  format_percent_1 (rate_of 12 100) = "12.0%" /\
  health (rate_of 12 100) 12 = "CRITICAL".
Proof. split; reflexivity. Qed.


End HealthFacts.

Section HealthExamples.
Import Jsonl AiDebugSummary Samples.


(** The scenario of the specification, run. *)
Example generate_summary_12_of_100 :
  let s := generate_summary sample_loads (fun _ => "")
             (Some (repeat "E01" 12 ++ repeat "I01" 88)%list) 24 in
  status_of s = Some "CRITICAL" /\ error_rate_of s = Some "12.0%".
Proof. vm_compute. split; reflexivity. Qed.

(** An empty window has no rate: the status is NO_LOGS. *)
Example generate_summary_no_logs :
  status_of (generate_summary sample_loads (fun _ => "") (Some []) 24)
  = Some "NO_LOGS".
Proof. reflexivity. Qed.

End HealthExamples.

(** ** The log viewer *)

Section ViewFacts.
Import Jsonl ViewLogs.

Variable loads : string -> option entry.
Variable format_0f : Q -> string.

(** For a positive [n], [l[-n:]] is the last [n] elements. *)
Lemma slice_from_neg {A} (n : Z) (l : list A) :
  0 < n -> Py.slice_from (- n) l = Main.newest (Z.to_nat n) l.
Proof.
  intros Hn. unfold Py.slice_from, Main.newest.
  destruct (- n <? 0) eqn:E; [|apply Z.ltb_ge in E; lia].
  f_equal. lia.
Qed.

(** [l[-0:]] is the whole list. *)
Lemma slice_from_zero {A} (l : list A) : Py.slice_from (- 0) l = l.
Proof. unfold Py.slice_from. simpl. now rewrite Z.min_l by lia. Qed.

(** With a positive [lines], only the last [2 * lines] lines of the file are
    decoded and filtered, and the last [lines] matches among them are
    kept. *)
Lemma selected_entries_window all_lines lines lv rid search :
  0 < lines ->
  selected_entries loads all_lines lines lv rid search =
  Main.newest (Z.to_nat lines)
    (omap (fun line =>
             match loads line with
             | Some e => if should_include lv rid search e then Some e
                         else None
             | None => None
             end)
          (Main.newest (Z.to_nat (2 * lines)) all_lines)).
Proof.
  intros Hn. unfold selected_entries.
  rewrite (slice_from_neg lines) by exact Hn.
  replace (- lines * 2) with (- (2 * lines)) by lia.
  now rewrite (slice_from_neg (2 * lines)) by lia.
Qed.

(** With a positive [lines], at most [lines] entries are printed. *)
Lemma view_json_logs_bound all_lines lines lv rid search :
  0 < lines ->
  (length (view_json_logs loads format_0f (Some all_lines) lines lv rid
                          search) <= Z.to_nat lines)%nat.
Proof.
  intros Hn. unfold view_json_logs.
  rewrite length_map, selected_entries_window by exact Hn.
  unfold Main.newest. rewrite length_drop. lia.
Qed.

End ViewFacts.

Section ViewExamples.
Import Jsonl ViewLogs Samples.

(** Matches older than the window are not seen: three ERROR lines followed
    by four INFO lines, [lines = 2] and the filter ERROR print nothing. *)
Example view_json_logs_misses_older :
  view_json_logs sample_loads (fun _ => "0")
    (Some ["E01"; "E02"; "E03"; "I04"; "I05"; "I06"; "I07"]) 2
    (Some "ERROR") None None = [].
Proof. reflexivity. Qed.

(** C10: with [lines = 0] both slices start at index [-0 = 0]: the whole
    file is decoded and every match is printed, three entries here where
    the limit is zero. *)
Theorem view_json_logs_zero_lines :
  selected_entries sample_loads ["I01"; "oops"; "E02"; "I03"] 0 None None None
    = [sample_entry "01" "INFO"; sample_entry "02" "ERROR";
       sample_entry "03" "INFO"] /\
  length (view_json_logs sample_loads (fun _ => "0")
            (Some ["I01"; "oops"; "E02"; "I03"]) 0 None None None) = 3%nat.
Proof. split; reflexivity. Qed.

End ViewExamples.

(** * Further properties *)

(** ** Case conversion *)

Lemma upper_ascii_idem c : Py.upper_ascii (Py.upper_ascii c) = Py.upper_ascii c.
Proof. destruct c as [[] [] [] [] [] [] [] []]; reflexivity. Qed.

Lemma upper_lower_ascii c : Py.upper_ascii (Py.lower_ascii c) = Py.upper_ascii c.
Proof. destruct c as [[] [] [] [] [] [] [] []]; reflexivity. Qed.

Lemma lower_upper_ascii c : Py.lower_ascii (Py.upper_ascii c) = Py.lower_ascii c.
Proof. destruct c as [[] [] [] [] [] [] [] []]; reflexivity. Qed.

Lemma upper_ascii_not_lower c : Py.is_lower_ascii (Py.upper_ascii c) = false.
Proof. destruct c as [[] [] [] [] [] [] [] []]; reflexivity. Qed.

Lemma upper_idem s : Py.upper (Py.upper s) = Py.upper s.
Proof. induction s; simpl; [reflexivity|]. now rewrite upper_ascii_idem, IHs. Qed.

Lemma upper_lower s : Py.upper (Py.lower s) = Py.upper s.
Proof. induction s; simpl; [reflexivity|]. now rewrite upper_lower_ascii, IHs. Qed.

Lemma lower_upper s : Py.lower (Py.upper s) = Py.lower s.
Proof. induction s; simpl; [reflexivity|]. now rewrite lower_upper_ascii, IHs. Qed.

Lemma truthy_upper s : Py.truthy (Py.upper s) = Py.truthy s.
Proof. destruct s; reflexivity. Qed.

Lemma truthy_lower s : Py.truthy (Py.lower s) = Py.truthy s.
Proof. destruct s; reflexivity. Qed.

Lemma truthy_true s : Py.truthy s = true <-> s <> "".
Proof.
  unfold Py.truthy. destruct (String.eqb s "") eqn:E; simpl.
  - apply String.eqb_eq in E. split; [discriminate | contradiction].
  - apply String.eqb_neq in E. split; auto.
Qed.

(** ** The request-id middleware *)

Section MiddlewareFacts.
Import RequestId SharedLogging.

(** X1: [dispatch] takes the inbound [X-Request-ID] header, or a fresh uuid
    when there is none, binds it for the handling of the request and echoes
    it in the response header, leaving the rest of the response as the
    handler made it.  Records filtered while the request is handled carry
    that id, except that an empty inbound header puts "no-request-id" on
    the records while the response echoes the empty string. *)
Theorem dispatch_correlates {B} x_request_id uuid4
    (call_next : context_var -> http_response B) ctx r :
  let rid := default uuid4 x_request_id in
  let seen := if String.eqb rid "" then "no-request-id" else rid in
  let '(ctx', response) := dispatch x_request_id uuid4 call_next ctx in
  resp_x_request_id response = Some rid /\
  resp_rest response = resp_rest (call_next ctx') /\
  get_request_id ctx' = seen /\
  rec_request_id (RequestIDFilter_filter true ctx' r) = Some seen.
Proof.
  intros rid seen. unfold dispatch. fold rid.
  assert (Hseen : get_request_id (set rid ctx) = seen).
  { subst seen. unfold get_request_id, set, Py.truthy.
    destruct (String.eqb rid ""); reflexivity. }
  repeat split; try exact Hseen.
  cbv [RequestIDFilter_filter set_request_id rec_request_id].
  f_equal. exact Hseen.
Qed.

End MiddlewareFacts.

(** ** The JSON-lines handler *)

Section EmitFacts.
Import SharedLogging.

Lemma dict_get_filter_inv {V} (p : string * V -> bool) k v d :
  Py.dict_get k (List.filter p d) = Some v -> p (k, v) = true.
Proof.
  induction d as [|[k0 v0] d IH]; simpl; [discriminate|].
  destruct (p (k0, v0)) eqn:P; [|exact IH].
  simpl. destruct (String.eqb k k0) eqn:E; [|exact IH].
  apply String.eqb_eq in E. subst k0. intros [= <-]. exact P.
Qed.

Lemma dict_get_In {V} k (v : V) d : Py.dict_get k d = Some v -> In (k, v) d.
Proof.
  induction d as [|[k0 v0] d IH]; simpl; [discriminate|].
  destruct (String.eqb k k0) eqn:E.
  - apply String.eqb_eq in E. subst k0. intros [= <-]. now left.
  - intros H. right. auto.
Qed.

Lemma dict_get_NoDup_In {V} k (v : V) d :
  List.NoDup (map fst d) -> In (k, v) d -> Py.dict_get k d = Some v.
Proof.
  induction d as [|[k0 v0] d IH]; simpl; [contradiction|].
  intros Hnd [Heq | Hin].
  - injection Heq as -> ->. now rewrite String.eqb_refl.
  - inversion Hnd as [|? ? Hnotin Hnd']; subst.
    destruct (String.eqb k k0) eqn:E; [|auto].
    apply String.eqb_eq in E. subst k0. exfalso. apply Hnotin.
    apply in_map_iff. now exists (k, v).
Qed.

Lemma JSONLineHandler_emit_eq utcnow r :
  JSONLineHandler_emit utcnow r =
  List.filter (fun kv => negb (is_VNone (snd kv))) (log_entry_of utcnow r).
Proof. reflexivity. Qed.

Lemma log_entry_of_keys utcnow r :
  map fst (log_entry_of utcnow r) =
  (["ts"; "unix_ts"; "level"; "module"; "request_id"; "logger"; "file";
    "line"; "func"; "msg"; "span_id"; "span_op"; "duration_ms"; "context"]
   ++ (match rec_exc_info r with Some _ => ["exception"] | None => [] end))%list.
Proof.
  unfold log_entry_of. destruct (rec_exc_info r) as [[e tb]|]; reflexivity.
Qed.

Lemma log_entry_of_NoDup utcnow r :
  List.NoDup (map fst (log_entry_of utcnow r)).
Proof.
  rewrite log_entry_of_keys.
  destruct (rec_exc_info r); simpl;
    repeat (apply List.NoDup_cons; [simpl; intuition discriminate|]);
    apply List.NoDup_nil.
Qed.

(** Reading a key of the written object: the value put under it, unless
    that value is [None]. *)
Lemma JSONLineHandler_emit_get utcnow r k v :
  In (k, v) (log_entry_of utcnow r) ->
  Py.dict_get k (JSONLineHandler_emit utcnow r) =
    if is_VNone v then None else Some v.
Proof.
  intros Hin. rewrite JSONLineHandler_emit_eq.
  pose proof (dict_get_NoDup_In k v _ (log_entry_of_NoDup utcnow r) Hin) as Hg.
  destruct (is_VNone v) eqn:Hv.
  - destruct (Py.dict_get k (List.filter _ (log_entry_of utcnow r)))
      as [v'|] eqn:E; [|reflexivity].
    pose proof (dict_get_filter_inv _ _ _ _ E) as Hp.
    apply dict_get_In in E. apply filter_In in E as [E _].
    apply (dict_get_NoDup_In _ _ _ (log_entry_of_NoDup utcnow r)) in E.
    rewrite Hg in E. injection E as <-. simpl in Hp. now rewrite Hv in Hp.
  - apply dict_get_filter; [exact Hg | simpl; now rewrite Hv].
Qed.

Lemma log_entry_of_base utcnow r k v :
  In (k, v)
     [ ("ts", VStr (utcnow ++ "Z"));
       ("unix_ts", VNum (rec_created r));
       ("level", VStr (levelname (rec_level r)));
       ("module", VStr (default "MAIN" (rec_module_tag r)));
       ("request_id", of_opt_str (rec_request_id r));
       ("logger", VStr (rec_name r));
       ("file", VStr (rec_filename r));
       ("line", VInt (rec_lineno r));
       ("func", VStr (rec_funcName r));
       ("msg", VStr (rec_message r));
       ("span_id", of_opt_str (rec_span_id r));
       ("span_op", of_opt_str (rec_span_op r));
       ("duration_ms", of_opt_num (rec_duration_ms r));
       ("context", default VNone (rec_log_context r)) ] ->
  In (k, v) (log_entry_of utcnow r).
Proof.
  intros Hin. unfold log_entry_of.
  destruct (rec_exc_info r) as [[e tb]|]; [|exact Hin].
  simpl in *. intuition.
Qed.


End EmitFacts.

(** ** From a call to the written line *)

Section LineFacts.
Import SharedLogging.

(** The filters of a logger leave the tag of the last one. *)
Lemma fold_module_tags tags :
  forall r,
    fold_left (fun r tag => ModuleTagFilter_filter tag r) tags r =
    match last tags with
    | Some t => set_module_tag t r
    | None => r
    end.
Proof.
  induction tags as [|t tags IH]; intros r; [reflexivity|].
  simpl fold_left. rewrite IH, last_cons.
  destruct (last tags); reflexivity.
Qed.

Lemma logger_filter_last lg st r :
  logger_filter lg st r =
  match last (default [] (logger_filters st !! lg)) with
  | Some t => set_module_tag t r
  | None => r
  end.
Proof. apply fold_module_tags. Qed.

Lemma handled_record_fields st em c :
  let r := handled_record st em c in
  rec_level r = call_level c /\
  rec_name r = call_logger c /\
  rec_message r = call_msg c /\
  rec_span_id r = x_span_id (call_extra c) /\
  rec_span_op r = x_span_op (call_extra c) /\
  rec_duration_ms r = x_duration_ms (call_extra c) /\
  rec_log_context r = x_log_context (call_extra c) /\
  rec_module_tag r = last (default [] (logger_filters st !! call_logger c)) /\
  rec_request_id r =
    Some (if em_import_ok em then RequestId.get_request_id (em_context em)
          else "----").
Proof.
  unfold handled_record. rewrite logger_filter_last.
  destruct (last (default [] (logger_filters st !! call_logger c)));
    destruct (em_import_ok em); repeat split.
Qed.

Lemma json_line_eq st em c :
  json_line st em c =
  JSONLineHandler_emit (em_utcnow em) (handled_record st em c).
Proof. reflexivity. Qed.

(** Reading one of the base keys of the line written for a call. *)
Ltac read_key v :=
  rewrite json_line_eq;
  erewrite (JSONLineHandler_emit_get _ _ _ v);
  [| apply log_entry_of_base; simpl; intuition ].



(** The module of a line is the tag of the newest filter of its logger,
    "MAIN" when the logger has none. *)
Lemma json_line_module st em c :
  Py.dict_get "module" (json_line st em c) =
  Some (VStr (default "MAIN"
                (last (default [] (logger_filters st !! call_logger c))))).
Proof.
  destruct (handled_record_fields st em c) as (_&_&_&_&_&_&_& Ht &_).
  read_key (VStr (default "MAIN" (rec_module_tag (handled_record st em c)))).
  now rewrite Ht.
Qed.


End LineFacts.

Section LineExamples.
Import SharedLogging Samples.


End LineExamples.

(** ** More on the sink layer and the registry *)

Section SinkFacts.
Import SharedLogging.





(** The state [get_logger] works on, after the lazy initialisation. *)
Lemma get_logger_initialized name module st :
  _initialized (get_logger name module st).2 = true.
Proof.
  unfold get_logger.
  set (st0 := if _initialized st then st
              else setup_centralized_logging "INFO" true st).
  assert (Hi : _initialized st0 = true).
  { subst st0. destruct (_initialized st) eqn:E; [exact E|].
    apply setup_initialized. }
  destruct (_loggers st0 !! (module ++ ":" ++ name)); simpl; exact Hi.
Qed.

Lemma get_logger_lookup name module st :
  _loggers (get_logger name module st).2 !! (module ++ ":" ++ name)
  = Some (get_logger name module st).1.
Proof.
  unfold get_logger.
  set (st0 := if _initialized st then st
              else setup_centralized_logging "INFO" true st).
  destruct (_loggers st0 !! (module ++ ":" ++ name)) as [lg|] eqn:Hl; simpl.
  - exact Hl.
  - apply lookup_insert_eq.
Qed.

Lemma get_logger_sinks name module st :
  let st0 := if _initialized st then st
             else setup_centralized_logging "INFO" true st in
  root_handlers (get_logger name module st).2 = root_handlers st0 /\
  root_level (get_logger name module st).2 = root_level st0 /\
  logger_levels (get_logger name module st).2 = logger_levels st0 /\
  stdout (get_logger name module st).2 = stdout st0.
Proof.
  intros st0. unfold get_logger. fold st0.
  destruct (_loggers st0 !! (module ++ ":" ++ name)); repeat split.
Qed.

(** X8: [get_logger] leaves the sink layer initialised and never
    reconfigures it: on an initialised process handlers, levels and output
    are untouched; on a fresh one the default configuration (INFO, with
    console) is installed.  The handle is cached under its key, and the
    other cache entries are kept. *)
Theorem get_logger_keeps_sinks name module st :
  let h := (get_logger name module st).1 in
  let s' := (get_logger name module st).2 in
  _initialized s' = true /\
  _loggers s' !! (module ++ ":" ++ name) = Some h /\
  (forall k v, _loggers st !! k = Some v -> _loggers s' !! k = Some v) /\
  (_initialized st = true ->
     root_handlers s' = root_handlers st /\ root_level s' = root_level st /\
     logger_levels s' = logger_levels st /\ stdout s' = stdout st) /\
  (_initialized st = false ->
     root_level s' = levelno INFO /\
     root_handlers s' =
       [console_handler (levelno INFO); main_handler; error_handler;
        json_handler]).
Proof.
  intros h s'. subst h s'.
  split; [apply get_logger_initialized|].
  split; [apply get_logger_lookup|].
  destruct (get_logger_sinks name module st) as (Hh & Hl & Hll & Ho).
  split; [|split].
  - intros k v Hk. unfold get_logger.
    set (st0 := if _initialized st then st
                else setup_centralized_logging "INFO" true st).
    assert (H0 : _loggers st0 = _loggers st).
    { subst st0. unfold setup_centralized_logging.
      destruct (_initialized st); reflexivity. }
    destruct (_loggers st0 !! (module ++ ":" ++ name)) as [lg|] eqn:E; simpl.
    + now rewrite H0.
    + rewrite H0 in *. rewrite lookup_insert_ne; [exact Hk|].
      intros <-. congruence.
  - intros Hi. rewrite Hi in *. auto.
  - intros Hi. rewrite Hi in *. rewrite Hl, Hh.
    unfold setup_centralized_logging. rewrite Hi. split; reflexivity.
Qed.

Lemma string_app_assoc (a b c : string) : ((a ++ b) ++ c = a ++ (b ++ c))%string.
Proof.
  induction a as [|ch a IH]; [reflexivity|].
  change (String ch ((a ++ b) ++ c) = String ch (a ++ (b ++ c)))%string.
  now f_equal.
Qed.

(** X9: the cache key is the text "module:name", so two different pairs can
    share it: after [get_logger(n, "m:x")], the call [get_logger("x:n", "m")]
    finds that entry and returns the same handle, the logger named [n],
    without touching the registry. *)
Theorem get_logger_key_collision st m x n :
  get_logger (x ++ ":" ++ n) m (get_logger n (m ++ ":" ++ x) st).2
  = get_logger n (m ++ ":" ++ x) st.
Proof.
  pose proof (get_logger_initialized n (m ++ ":" ++ x) st) as Hi.
  pose proof (get_logger_lookup n (m ++ ":" ++ x) st) as Hl.
  destruct (get_logger n (m ++ ":" ++ x) st) as [h1 s1]; simpl in *.
  unfold get_logger. rewrite Hi.
  replace (m ++ ":" ++ x ++ ":" ++ n)%string
    with ((m ++ ":" ++ x) ++ ":" ++ n)%string
    by (rewrite !string_app_assoc; reflexivity).
  now rewrite Hl.
Qed.

End SinkFacts.

(** ** More on spans *)

Section SpanMoreFacts.
Import SharedLogging.

Variable json_dumps : py_dict -> string.
Variable format_2f : Q -> string.

Lemma span_entry_pair (logger : option string) st :
  (match logger with
   | Some l => (l, st)
   | None => get_logger "shared_logging" "SPAN" st
   end).2 = span_entry_state logger st.
Proof. destruct logger; reflexivity. Qed.

Ltac enter_span logger st lg st' :=
  rewrite <- (span_entry_pair logger st) in *;
  destruct (match logger with
            | Some l => (l, st)
            | None => get_logger "shared_logging" "SPAN" st
            end) as [lg st']; simpl in *.

Lemma duration_nonneg (t0 t1 : Q) :
  (t0 <= t1)%Q -> (0 <= (t1 - t0) * inject_Z 1000)%Q.
Proof.
  intros H. apply Qmult_le_0_compat; [|discriminate].
  unfold Qminus. rewrite <- (Qplus_opp_r t0).
  apply Qplus_le_compat; [exact H | apply Qle_refl].
Qed.

(** X10: when the body of a span returns, the span makes the SPAN_START
    call before the body's calls and the SPAN_END call after them, both at
    INFO and with the same span id, operation and context; only the end
    call has a duration, which is not negative when the clock did not go
    back; the value of the body is returned and the registry is as the
    body left it. *)
Theorem log_span_success {A} operation logger context span_id t0 t1
    (body : string -> logging_state -> run A) st a :
  run_outcome (body span_id (span_entry_state logger st)) = Returned a ->
  let inner := body span_id (span_entry_state logger st) in
  let r := log_span json_dumps format_2f operation logger context span_id
                    t0 t1 body st in
  exists span_start span_end d,
    run_calls r = (span_start :: run_calls inner ++ [span_end])%list /\
    span_kind_of span_start = Some SpanStart /\
    span_kind_of span_end = Some SpanEnd /\
    call_level span_start = INFO /\ call_level span_end = INFO /\
    x_span_id (call_extra span_start) = Some span_id /\
    x_span_id (call_extra span_end) = Some span_id /\
    x_span_op (call_extra span_start) = Some operation /\
    x_span_op (call_extra span_end) = Some operation /\
    x_log_context (call_extra span_end)
      = x_log_context (call_extra span_start) /\
    x_duration_ms (call_extra span_start) = None /\
    x_duration_ms (call_extra span_end) = Some d /\
    ((t0 <= t1)%Q -> (0 <= d)%Q) /\
    run_outcome r = Returned a /\
    run_state r = run_state inner.
Proof.
  intros Hout inner r. subst inner r. unfold log_span.
  enter_span logger st lg s1. rewrite Hout.
  eexists _, _, _.
  repeat (split; [reflexivity|]).
  split; [apply duration_nonneg|]. split; reflexivity.
Qed.

(** X11: spans nest.  When the body of an inner span raises an
    [Exception], the calls are, in order: the outer start, the inner start,
    the calls of the body, the inner error, the outer error; each error
    call carries the id of its own span and the message of the exception,
    and the exception comes out of the outer span. *)
Theorem log_span_nested_failure {A} op1 lg1 ctx1 id1 op2 lg2 ctx2 id2
    t0 t1 t2 t3 (body : string -> logging_state -> run A) st e :
  let st2 := span_entry_state lg2 (span_entry_state lg1 st) in
  run_outcome (body id2 st2) = Raised e ->
  exc_is_Exception e = true ->
  let r :=
    log_span json_dumps format_2f op1 lg1 ctx1 id1 t0 t3
      (fun _ st' =>
         log_span json_dumps format_2f op2 lg2 ctx2 id2 t1 t2 body st') st in
  exists outer_start inner_start inner_error outer_error,
    run_calls r =
      (outer_start :: inner_start :: run_calls (body id2 st2)
         ++ [inner_error; outer_error])%list /\
    map span_kind_of [outer_start; inner_start; inner_error; outer_error]
      = [Some SpanStart; Some SpanStart; Some SpanError; Some SpanError] /\
    map (fun c => x_span_id (call_extra c))
        [outer_start; inner_start; inner_error; outer_error]
      = [Some id1; Some id2; Some id2; Some id1] /\
    (forall c, In c [inner_error; outer_error] ->
       exists merged,
         x_log_context (call_extra c) = Some (VDict merged) /\
         Py.dict_get "error" merged = Some (VStr (exc_str e))) /\
    run_outcome r = Raised e.
Proof.
  intros st2 Hout Hexc r. subst st2 r. unfold log_span.
  enter_span lg1 st l1 s1. enter_span lg2 s1 l2 s2.
  rewrite Hout. simpl. rewrite Hexc. simpl. rewrite Hexc.
  eexists _, _, _, _.
  split; [simpl; rewrite <- app_assoc; reflexivity|].
  split; [reflexivity|]. split; [reflexivity|]. split; [|reflexivity].
  intros c [<- | [<- | []]]; simpl; eexists; (split; [reflexivity|]);
    (rewrite dict_get_set_ne by discriminate; apply dict_get_set_eq).
Qed.

End SpanMoreFacts.

Section SpanMoreExamples.
Import SharedLogging Samples.

Lemma log_span_success_witness :
  let body := fun (_ : string) (st : logging_state) =>
                {| run_calls := []; run_outcome := Returned 7%nat;
                   run_state := st |} in
  let inner := body "ab12cd34" (span_entry_state None initial_state) in
  let r := log_span (fun _ => "{}") (fun _ => "0.00") "process_order" None
                    [("order_id", VInt 123)] "ab12cd34" 0 1 body
                    initial_state in
  exists span_start span_end d,
    run_calls r = (span_start :: run_calls inner ++ [span_end])%list /\
    span_kind_of span_start = Some SpanStart /\
    span_kind_of span_end = Some SpanEnd /\
    call_level span_start = INFO /\ call_level span_end = INFO /\
    x_span_id (call_extra span_start) = Some "ab12cd34" /\
    x_span_id (call_extra span_end) = Some "ab12cd34" /\
    x_span_op (call_extra span_start) = Some "process_order" /\
    x_span_op (call_extra span_end) = Some "process_order" /\
    x_log_context (call_extra span_end)
      = x_log_context (call_extra span_start) /\
    x_duration_ms (call_extra span_start) = None /\
    x_duration_ms (call_extra span_end) = Some d /\
    ((0 <= 1)%Q -> (0 <= d)%Q) /\
    run_outcome r = Returned 7%nat /\
    run_state r = run_state inner.
Proof.
  apply (log_span_success (fun _ => "{}") (fun _ => "0.00") "process_order"
           None [("order_id", VInt 123)] "ab12cd34" 0 1
           (fun _ st => {| run_calls := []; run_outcome := Returned 7%nat;
                           run_state := st |}) initial_state 7%nat).
  reflexivity.
Defined.

Lemma log_span_nested_failure_witness :
  let st2 := span_entry_state None (span_entry_state None initial_state) in
  let r :=
    log_span (fun _ => "{}") (fun _ => "0.00") "outer" None [] "aaaaaaaa" 0 3
      (fun _ st' =>
         log_span (fun _ => "{}") (fun _ => "0.00") "inner" None [] "bbbbbbbb"
                  1 2 (raising ValueError) st') initial_state in
  exists outer_start inner_start inner_error outer_error,
    run_calls r =
      (outer_start :: inner_start :: run_calls (raising ValueError "bbbbbbbb" st2)
         ++ [inner_error; outer_error])%list /\
    map span_kind_of [outer_start; inner_start; inner_error; outer_error]
      = [Some SpanStart; Some SpanStart; Some SpanError; Some SpanError] /\
    map (fun c => x_span_id (call_extra c))
        [outer_start; inner_start; inner_error; outer_error]
      = [Some "aaaaaaaa"; Some "bbbbbbbb"; Some "bbbbbbbb"; Some "aaaaaaaa"] /\
    (forall c, In c [inner_error; outer_error] ->
       exists merged,
         x_log_context (call_extra c) = Some (VDict merged) /\
         Py.dict_get "error" merged = Some (VStr (exc_str ValueError))) /\
    run_outcome r = Raised ValueError.
Proof.
  apply (log_span_nested_failure (fun _ => "{}") (fun _ => "0.00")
           "outer" None [] "aaaaaaaa" "inner" None [] "bbbbbbbb" 0 1 2 3
           (raising ValueError) initial_state ValueError); reflexivity.
Defined.

End SpanMoreExamples.

(** ** More on the exception context *)

Section LocalsFacts.
Import SharedLogging.

Lemma dict_get_set {V} k k' (v : V) d :
  Py.dict_get k (Py.dict_set k' v d) =
  if String.eqb k k' then Some v else Py.dict_get k d.
Proof.
  destruct (String.eqb k k') eqn:E.
  - apply String.eqb_eq in E. subst k'. apply dict_get_set_eq.
  - apply String.eqb_neq in E. apply dict_get_set_ne. congruence.
Qed.

Lemma capture_local_public max acc k v :
  Py.startswith "_" k = false ->
  capture_local max acc (k, v) =
  Py.dict_set k (VStr (stored_repr max k v)) acc.
Proof.
  intros Hpub. unfold capture_local, stored_repr. rewrite Hpub.
  destruct (is_sensitive k); [reflexivity|]. destruct v; reflexivity.
Qed.

(** A name whose binding the loop does not meet keeps what it had. *)
Lemma fold_capture_other max f_locals :
  forall acc k,
    (forall v, ~ In (k, v) f_locals) ->
    Py.dict_get k (fold_left (capture_local max) f_locals acc)
      = Py.dict_get k acc.
Proof.
  induction f_locals as [|[k' v'] l IH]; intros acc k Hnot; [reflexivity|].
  cbn [fold_left]. rewrite IH.
  - apply capture_local_other. intros ->. apply (Hnot v'). now left.
  - intros v Hin. apply (Hnot v). now right.
Qed.

Lemma fold_capture_private max f_locals :
  forall acc k,
    Py.startswith "_" k = true ->
    Py.dict_get k (fold_left (capture_local max) f_locals acc)
      = Py.dict_get k acc.
Proof.
  induction f_locals as [|[k' v'] l IH]; intros acc k Hpriv; [reflexivity|].
  cbn [fold_left]. rewrite IH by exact Hpriv.
  destruct (string_dec k' k) as [->|Hne].
  - now rewrite capture_local_private.
  - now apply capture_local_other.
Qed.

Lemma fold_capture_is_Some max f_locals :
  forall acc k,
    Py.startswith "_" k = false ->
    (is_Some (Py.dict_get k (fold_left (capture_local max) f_locals acc)) <->
     is_Some (Py.dict_get k acc) \/ exists v, In (k, v) f_locals).
Proof.
  induction f_locals as [|[k' v'] l IH]; intros acc k Hpub; cbn [fold_left].
  - split; [now left | intros [H | [v []]]; exact H].
  - rewrite IH by exact Hpub.
    destruct (string_dec k' k) as [->|Hne].
    + rewrite capture_local_public, dict_get_set_eq by exact Hpub.
      split; [intros _; right; exists v'; now left | intros _; left; eauto].
    + rewrite capture_local_other by exact Hne.
      split; intros [H | [v Hin]]; auto.
      * right. exists v. now right.
      * destruct Hin as [Heq | Hin]; [congruence|]. right. eauto.
Qed.

(** X12: with [include_locals] on, the names captured are exactly the
    locals of the caller's frame that do not start with an underscore:
    private names never appear, and no name is made up. *)
Theorem captured_locals_domain max f_locals k :
  is_Some (Py.dict_get k (locals_safe_of true max (Some f_locals))) <->
  Py.startswith "_" k = false /\ exists v, In (k, v) f_locals.
Proof.
  unfold locals_safe_of.
  destruct (Py.startswith "_" k) eqn:Hk.
  - rewrite fold_capture_private by exact Hk. simpl.
    split; [intros [x Hx]; discriminate Hx | intros [H _]; discriminate H].
  - rewrite fold_capture_is_Some by exact Hk. simpl.
    split.
    + intros [[x Hx] | H]; [discriminate Hx | now split].
    + intros [_ H]. now right.
Qed.

Lemma string_length_app (a b : string) :
  String.length (a ++ b) = (String.length a + String.length b)%nat.
Proof.
  induction a as [|ch a IH]; [reflexivity|].
  change (S (String.length (a ++ b)) = S (String.length a + String.length b)).
  now f_equal.
Qed.

Lemma substring_0_length n s : (String.length (String.substring 0 n s) <= n)%nat.
Proof.
  revert s. induction n as [|n IH]; intros [|c s]; simpl; try lia.
  specialize (IH s). lia.
Qed.

Lemma stored_repr_length max k v :
  0 <= max ->
  is_sensitive k = false ->
  (String.length (stored_repr max k v) <= Z.to_nat max + 14)%nat.
Proof.
  intros Hmax Hs. unfold stored_repr. rewrite Hs.
  destruct v as [repr_val|];
    [|change (String.length "[repr failed]") with 13%nat; lia].
  destruct (max <? Z.of_nat (String.length repr_val)) eqn:E.
  - rewrite string_length_app. unfold str_slice_to.
    destruct (max <? 0) eqn:E0; [apply Z.ltb_lt in E0; lia|].
    pose proof (substring_0_length
                  (Z.to_nat (Z.min max (Z.of_nat (String.length repr_val))))
                  repr_val) as Hl.
    change (String.length "...[truncated]") with 14%nat. lia.
  - apply Z.ltb_ge in E. lia.
Qed.

(** X13: a local with a public, non-sensitive name is stored under its
    name with its [repr]: as it is when its length is within
    [max_local_repr], cut to [max_local_repr] characters and marked
    "...[truncated]" beyond, and "[repr failed]" when [repr] raises.  For a
    non-negative [max_local_repr] the stored text is never longer than
    [max_local_repr + 14] characters. *)
Theorem captured_local_repr max f_locals k v :
  List.NoDup (map fst f_locals) ->
  In (k, v) f_locals ->
  Py.startswith "_" k = false ->
  is_sensitive k = false ->
  exists shown,
    Py.dict_get k (locals_safe_of true max (Some f_locals))
      = Some (VStr shown) /\
    shown = match v with
            | Some repr_val =>
                if max <? Z.of_nat (String.length repr_val)
                then str_slice_to max repr_val ++ "...[truncated]"
                else repr_val
            | None => "[repr failed]"
            end /\
    (0 <= max -> (String.length shown <= Z.to_nat max + 14)%nat).
Proof.
  intros Hnd Hin Hpub Hsens. exists (stored_repr max k v).
  split; [|split].
  - unfold locals_safe_of. generalize (@nil (string * py_value)).
    induction f_locals as [|[k' v'] l IH]; intros acc; [destruct Hin|].
    cbn [fold_left]. inversion Hnd as [|? ? Hnotin Hnd']; subst.
    destruct Hin as [Heq | Hin].
    + injection Heq as -> ->.
      rewrite fold_capture_other.
      * rewrite capture_local_public by exact Hpub. apply dict_get_set_eq.
      * intros v0 Hin0. apply Hnotin. apply in_map_iff. now exists (k, v0).
    + now apply IH.
  - unfold stored_repr. now rewrite Hsens.
  - intros Hmax. now apply stored_repr_length.
Qed.

End LocalsFacts.

Section LocalsExamples.
Import SharedLogging.

Lemma captured_local_repr_witness :
  exists shown,
    Py.dict_get "order"
      (locals_safe_of true 5
         (Some [("order", Some "0123456789"); ("_tmp", Some "1")]))
      = Some (VStr shown) /\
    shown = (if 5 <? Z.of_nat (String.length "0123456789")
             then str_slice_to 5 "0123456789" ++ "...[truncated]"
             else "0123456789") /\
    (0 <= 5 -> (String.length shown <= Z.to_nat 5 + 14)%nat).
Proof.
  apply (captured_local_repr 5
           [("order", Some "0123456789"); ("_tmp", Some "1")]
           "order" (Some "0123456789")).
  - simpl. repeat (apply List.NoDup_cons; [simpl; intuition discriminate|]).
    apply List.NoDup_nil.
  - simpl. left. reflexivity.
  - reflexivity.
  - reflexivity.
Defined.

End LocalsExamples.

(** ** More on the query engine *)

Section QueryMoreFacts.
Import Jsonl Main.

Variable loads : string -> option entry.
Variable cutoff_of : Z -> string.

(** X14: a limit that is zero or negative answers with no record, count 0
    and no summary, whatever the file and the filters. *)
Theorem get_debug_logs_nonpositive lines last q incl :
  last <= 0 ->
  get_debug_logs loads cutoff_of (Some lines) last q incl = Logs [] 0 q None.
Proof.
  intros Hlast. unfold get_debug_logs. rewrite scan_spec.
  replace (Z.to_nat last - length (@nil entry))%nat with 0%nat by (simpl; lia).
  simpl. now rewrite andb_false_r.
Qed.

Lemma supplied_fmap (f : string -> string) p :
  (forall s, Py.truthy (f s) = Py.truthy s) ->
  supplied (f <$> p) = f <$> supplied p.
Proof.
  intros Hf. destruct p as [s|]; simpl; [|reflexivity].
  rewrite Hf. destruct (Py.truthy s); reflexivity.
Qed.

(** X15: the level, module and search filters ignore ASCII case: writing
    them in another case returns the same records. *)
Theorem get_debug_logs_case_insensitive lines last q incl :
  let q' := {| f_level := Py.lower <$> f_level q;
               f_request_id := f_request_id q;
               f_module := Py.lower <$> f_module q;
               f_search := Py.upper <$> f_search q;
               f_since_minutes := f_since_minutes q |} in
  response_logs (get_debug_logs loads cutoff_of (Some lines) last q' incl) =
  response_logs (get_debug_logs loads cutoff_of (Some lines) last q incl).
Proof.
  intros q'. rewrite !get_debug_logs_newest. f_equal.
  apply filter_ext. intros e. rewrite !keep_conjunction.
  assert (Ht : cutoff_time_of cutoff_of q' = cutoff_time_of cutoff_of q)
    by reflexivity.
  rewrite Ht.
  assert (Hl : level_ok q' e = level_ok q e).
  { unfold level_ok. subst q'. simpl.
    rewrite (supplied_fmap Py.lower) by apply truthy_lower.
    destruct (supplied (f_level q)); simpl; [|reflexivity].
    now rewrite upper_lower. }
  assert (Hm : module_ok q' e = module_ok q e).
  { unfold module_ok. subst q'. simpl.
    rewrite (supplied_fmap Py.lower) by apply truthy_lower.
    destruct (supplied (f_module q)); simpl; [|reflexivity].
    now rewrite upper_lower. }
  assert (Hs : search_ok q' e = search_ok q e).
  { unfold search_ok. subst q'. simpl.
    rewrite (supplied_fmap Py.upper) by apply truthy_upper.
    destruct (supplied (f_search q)); simpl; [|reflexivity].
    now rewrite lower_upper. }
  rewrite Hl, Hm, Hs. reflexivity.
Qed.

End QueryMoreFacts.

Section QueryMoreExamples.
Import Jsonl Main Samples.

Lemma get_debug_logs_nonpositive_witness :
  get_debug_logs sample_loads (fun _ => "") (Some ["I01"; "E02"]) 0
                 no_filters true = Logs [] 0 no_filters None.
Proof.
  apply (get_debug_logs_nonpositive sample_loads (fun _ => "")
           ["I01"; "E02"] 0 no_filters true).
  lia.
Defined.

End QueryMoreExamples.

(** ** More on the summaries *)

Section HistogramFacts.
Import Jsonl.

Lemma dict_incr_get k k' d :
  Py.dict_get k (dict_incr k' d) =
  if String.eqb k k' then Some (default 0 (Py.dict_get k' d) + 1)
  else Py.dict_get k d.
Proof. unfold dict_incr. apply dict_get_set. Qed.

Lemma fold_incr_get {A} (key : A -> string) (l : list A) :
  forall d k,
    Py.dict_get k (fold_left (fun d x => dict_incr (key x) d) l d) =
    if (filed key k l =? 0)%nat then Py.dict_get k d
    else Some (default 0 (Py.dict_get k d) + Z.of_nat (filed key k l)).
Proof.
  unfold filed.
  induction l as [|x l IH]; intros d k; [reflexivity|].
  cbn [fold_left List.filter]. rewrite IH, dict_incr_get.
  rewrite (String.eqb_sym (key x) k).
  destruct (String.eqb k (key x)) eqn:E.
  - apply String.eqb_eq in E. subst k. cbn [length].
    destruct (length _ =? 0)%nat eqn:E0.
    + apply Nat.eqb_eq in E0. rewrite E0. reflexivity.
    + simpl default. f_equal. lia.
  - reflexivity.
Qed.

(** X16: the histograms are exact: a key of the level (or module)
    distribution is a level (or module) that occurs, "UNKNOWN" standing for
    a record without one, and its count is the number of records that
    have it. *)
Theorem count_by_exact (field : entry -> option string) logs k :
  let n := filed (fun e => default "UNKNOWN" (field e)) k logs in
  Py.dict_get k (count_by field logs) =
    (if (n =? 0)%nat then None else Some (Z.of_nat n)) /\
  Main.level_distribution (Main._generate_log_summary logs)
    = count_by level logs /\
  Main.module_distribution (Main._generate_log_summary logs)
    = count_by module logs.
Proof.
  intros n. subst n. split; [|split; reflexivity].
  unfold count_by.
  rewrite (fold_incr_get (fun e => default "UNKNOWN" (field e))). simpl.
  destruct (filed _ k logs =? 0)%nat; reflexivity.
Qed.

(** X17: the request count is the number of distinct request ids that are
    set, not empty and not the placeholder "----"; "no-request-id" counts
    as one. *)
Theorem request_ids_distinct logs :
  List.NoDup (request_ids logs) /\
  (forall r, In r (request_ids logs) <->
     r <> "" /\ r <> "----" /\
     exists e, In e logs /\ request_id e = Some r) /\
  Main.unique_requests (Main._generate_log_summary logs)
    = length (request_ids logs).
Proof.
  split; [|split; [|reflexivity]].
  - apply NoDup_ListNoDup. unfold request_ids. apply NoDup_remove_dups.
  - intros r. unfold request_ids.
    rewrite <- list_elem_of_In, elem_of_remove_dups, list_elem_of_omap.
    split.
    + intros (e & He & Hr). apply list_elem_of_In in He.
      destruct (request_id e) as [r'|] eqn:Er; [|discriminate].
      destruct (Py.truthy r') eqn:Et; simpl in Hr; [|discriminate].
      destruct (String.eqb r' "----") eqn:Es; simpl in Hr; [discriminate|].
      injection Hr as ->.
      split; [now apply truthy_true|].
      split; [now apply String.eqb_neq|]. eauto.
    + intros (Hne & Hnp & e & He & Hr). exists e.
      split; [now apply list_elem_of_In|].
      rewrite Hr. apply truthy_true in Hne. rewrite Hne.
      apply String.eqb_neq in Hnp. now rewrite Hnp.
Qed.

End HistogramFacts.

Section SlowFacts.
Import Jsonl Main.

Lemma insert_desc_perm x l : Permutation (insert_desc x l) (x :: l).
Proof.
  induction l as [|y l IH]; simpl; [reflexivity|].
  destruct (Qle_bool (slow_duration_ms x) (slow_duration_ms y)).
  - rewrite IH. apply perm_swap.
  - reflexivity.
Qed.

Lemma insert_desc_sorted x l :
  StronglySorted slower_first l -> StronglySorted slower_first (insert_desc x l).
Proof.
  induction 1 as [|y l Hs IH Hall]; simpl.
  - repeat constructor.
  - destruct (Qle_bool (slow_duration_ms x) (slow_duration_ms y)) eqn:E.
    + constructor; [exact IH|].
      apply Qle_bool_iff in E.
      rewrite List.Forall_forall in *. intros z Hz.
      apply (Permutation_in _ (insert_desc_perm x l)) in Hz.
      destruct Hz as [<- | Hz]; [exact E | now apply Hall].
    + apply Qle_bool_false in E.
      constructor; [now constructor|].
      constructor; [now apply Qlt_le_weak|].
      rewrite List.Forall_forall in *. intros z Hz.
      unfold slower_first. apply Qle_trans with (slow_duration_ms y).
      * now apply Hall.
      * now apply Qlt_le_weak.
Qed.

Lemma sorted_desc_spec l :
  Permutation (sorted_desc l) l /\ StronglySorted slower_first (sorted_desc l).
Proof.
  unfold sorted_desc.
  assert (H : forall acc,
             StronglySorted slower_first acc ->
             Permutation (fold_left (fun acc x => insert_desc x acc) l acc)
                         (acc ++ l) /\
             StronglySorted slower_first
               (fold_left (fun acc x => insert_desc x acc) l acc)).
  { induction l as [|x l IH]; intros acc Hacc; simpl.
    - now rewrite app_nil_r.
    - destruct (IH (insert_desc x acc) (insert_desc_sorted x acc Hacc))
        as [Hp Hs].
      split; [|exact Hs].
      rewrite Hp, insert_desc_perm. simpl. apply Permutation_middle. }
  apply (H []). constructor.
Qed.

Lemma slow_item_of_slow log x :
  slow_item_of log = Some x -> (inject_Z 1000 < slow_duration_ms x)%Q.
Proof.
  unfold slow_item_of. destruct (duration_ms log) as [d|]; [|discriminate].
  destruct (is_slow d) eqn:E; [|discriminate]. intros [= <-]. simpl.
  unfold is_slow in E. apply andb_true_iff in E as [_ E].
  apply negb_true_iff in E. now apply Qle_bool_false.
Qed.

(** X18: [slow_operations] lists the records that took more than 1000 ms,
    slowest first and at most five of them: every operation left out took
    no longer than each one listed. *)
Theorem slow_operations_slowest logs :
  let slow := omap slow_item_of logs in
  let top := slow_operations (_generate_log_summary logs) in
  exists rest,
    Permutation (top ++ rest) slow /\
    StronglySorted slower_first top /\
    length top = Nat.min 5 (length slow) /\
    (forall x y, In x top -> In y rest -> slower_first x y) /\
    (forall x, In x top -> (inject_Z 1000 < slow_duration_ms x)%Q).
Proof.
  intros slow top. subst top. unfold _generate_log_summary. simpl. fold slow.
  rewrite (slice_to_take 5).
  destruct (sorted_desc_spec slow) as [Hp Hs].
  exists (drop 5 (sorted_desc slow)).
  rewrite <- (take_drop 5 (sorted_desc slow)) in Hs.
  apply StronglySorted_app in Hs as (Hrel & Hs1 & _).
  split; [now rewrite take_drop|]. split; [exact Hs1|]. split; [|split].
  - rewrite length_take, (Permutation_length Hp). reflexivity.
  - intros x y Hx Hy. apply Hrel; now apply list_elem_of_In.
  - intros x Hx.
    assert (Hin : In x slow).
    { apply (Permutation_in _ Hp). rewrite <- (take_drop 5 (sorted_desc slow)).
      apply in_or_app. now left. }
    apply list_elem_of_In, list_elem_of_omap in Hin as (log & _ & Hlog).
    now apply (slow_item_of_slow log).
Qed.

End SlowFacts.

(** ** The request trace *)

Section TraceFacts.
Import Jsonl Main.

Variable loads : string -> option entry.
Variable cutoff_of : Z -> string.

Lemma trace_scan_filter rid lines :
  trace_scan loads rid lines =
  List.filter (fun e => Py.contains rid (get_str request_id e))
              (omap loads lines).
Proof.
  unfold trace_scan.
  assert (H : forall acc,
             fold_left
               (fun logs line =>
                  match loads line with
                  | Some e =>
                      if Py.contains rid (get_str request_id e)
                      then (logs ++ [e])%list else logs
                  | None => logs
                  end) lines acc =
             (acc ++ List.filter
                       (fun e => Py.contains rid (get_str request_id e))
                       (omap loads lines))%list).
  { induction lines as [|line lines IH]; intros acc; simpl.
    - now rewrite app_nil_r.
    - rewrite IH. destruct (loads line) as [e|]; [|reflexivity].
      simpl. destruct (Py.contains rid (get_str request_id e));
        [now rewrite <- app_assoc | reflexivity]. }
  apply (H []).
Qed.

Lemma keep_by_request_id rid e :
  rid <> "" ->
  keep None (by_request_id rid) e = Py.contains rid (get_str request_id e).
Proof.
  intros Hne. unfold keep, by_request_id, supplied. simpl.
  apply truthy_true in Hne. rewrite Hne.
  destruct (Py.contains rid (get_str request_id e)); reflexivity.
Qed.

(** X19: the trace of a request holds, in file order, the decoded records
    whose request id contains the given id, so the records of every request
    whose id has it as a part; malformed lines are passed over.  It is what
    the log query returns for the same id as its only filter, when the
    limit is not below the number of lines. *)
Theorem get_request_trace_logs lines rid last incl :
  rid <> "" ->
  (length lines <= Z.to_nat last)%nat ->
  let trace := get_request_trace loads (Some lines) rid in
  (forall e, In e (trace_logs trace) <->
     In e (omap loads lines) /\
     Py.contains rid (get_str request_id e) = true) /\
  trace_logs trace =
    response_logs (get_debug_logs loads cutoff_of (Some lines) last
                                  (by_request_id rid) incl) /\
  (forall t, trace = Trace t ->
     rt_count t = length (rt_logs t) /\
     (rt_has_errors t = true <-> exists e, In e (rt_logs t) /\ is_error e = true)).
Proof.
  intros Hne Hlen trace. subst trace.
  assert (Ht : trace_logs (get_request_trace loads (Some lines) rid) =
               List.filter (fun e => Py.contains rid (get_str request_id e))
                           (omap loads lines))
    by (simpl; apply trace_scan_filter).
  split; [|split].
  - intros e. rewrite Ht, filter_In. tauto.
  - rewrite Ht, get_debug_logs_newest.
    assert (Hc : cutoff_time_of cutoff_of (by_request_id rid) = None)
      by reflexivity.
    rewrite Hc.
    rewrite (filter_ext _ _ (fun e => keep_by_request_id rid e Hne)).
    rewrite newest_all; [reflexivity|].
    etransitivity; [apply filter_length_le|].
    etransitivity; [|exact Hlen].
    clear. unfold omap. induction lines as [|l ls IH]; simpl; [lia|].
    destruct (loads l); simpl; lia.
  - unfold get_request_trace. intros t [= <-]. simpl. split; [reflexivity|].
    unfold Py.any. rewrite existsb_exists. reflexivity.
Qed.

End TraceFacts.

Section TraceExamples.
Import Jsonl Main Samples.

Lemma get_request_trace_logs_witness :
  let trace := get_request_trace sample_loads (Some ["I01"; "oops"; "E02"]) "r1" in
  (forall e, In e (trace_logs trace) <->
     In e (omap sample_loads ["I01"; "oops"; "E02"]) /\
     Py.contains "r1" (get_str request_id e) = true) /\
  trace_logs trace =
    response_logs (get_debug_logs sample_loads (fun _ => "")
                                  (Some ["I01"; "oops"; "E02"]) 50
                                  (by_request_id "r1") true) /\
  (forall t, trace = Trace t ->
     rt_count t = length (rt_logs t) /\
     (rt_has_errors t = true <-> exists e, In e (rt_logs t) /\ is_error e = true)).
Proof.
  apply (get_request_trace_logs sample_loads (fun _ => "")
           ["I01"; "oops"; "E02"] "r1" 50 true).
  - discriminate.
  - simpl. lia.
Defined.

End TraceExamples.

(** ** Frontend events *)

Section FrontendFacts.
Import Main.

Variable json_dumps : SharedLogging.py_dict -> string.

(** X20: what is logged for a frontend event does not depend on the
    entries of its context whose key contains password, token, key or
    secret (in any case): two events that differ only there produce the
    same call and the same answer, and no such key is handed to the
    serialiser. *)
Theorem frontend_context_redacted name level_ message url ua sid stamp
    (c1 c2 : SharedLogging.py_dict) st :
  c1 <> [] -> c2 <> [] ->
  safe_context c1 = safe_context c2 ->
  let event := fun c =>
    {| fe_level := level_; fe_message := message; fe_context := Some c;
       fe_url := url; fe_user_agent := ua; fe_session_id := sid;
       fe_timestamp := stamp |} in
  log_frontend_event json_dumps name (event c1) st
    = log_frontend_event json_dumps name (event c2) st /\
  (forall k v, In (k, v) (safe_context c1) -> frontend_sensitive k = false).
Proof.
  intros H1 H2 Hsafe event. split.
  - unfold log_frontend_event.
    destruct (SharedLogging.get_frontend_logger name st) as [lg s'].
    assert (Hm : full_message json_dumps (event c1)
                 = full_message json_dumps (event c2)).
    { destruct c1 as [|kv1 r1]; [contradiction|].
      destruct c2 as [|kv2 r2]; [contradiction|].
      unfold full_message, context_parts. subst event.
      cbn [fe_context fe_session_id fe_url fe_message].
      now rewrite Hsafe. }
    now rewrite Hm.
  - intros k v Hin. unfold safe_context in Hin.
    apply filter_In in Hin as [_ Hp]. simpl in Hp.
    now apply negb_true_iff in Hp.
Qed.

(** X21: under the configuration the backend installs at start-up (INFO,
    console on), and for a module whose logger takes its level from the
    root logger, a frontend event is always answered "logged" with its
    level in lower case; it is written to the console, application.log and
    application.jsonl when the level is warning, warn or info, to the error
    log as well when it is error or critical, and to no sink at all for any
    other level. *)
Theorem frontend_event_sinks name e st0 :
  SharedLogging._initialized st0 = false ->
  let st := SharedLogging.setup_centralized_logging "INFO" true st0 in
  let result := log_frontend_event json_dumps name e st in
  let lvl := Py.lower (fe_level e) in
  let sinks := SharedLogging.sinks_reached result.2 result.1.2 in
  SharedLogging.getEffectiveLevel
    result.2 (SharedLogging.call_logger result.1.2)
    = SharedLogging.root_level result.2 ->
  fr_status result.1.1 = "logged" /\
  fr_level result.1.1 = lvl /\
  (In lvl ["error"; "critical"] ->
     sinks = [SharedLogging.Stdout;
              SharedLogging.LogFile "application.log";
              SharedLogging.LogFile "application_errors.log";
              SharedLogging.LogFile "application.jsonl"]) /\
  (In lvl ["warning"; "warn"; "info"] ->
     sinks = [SharedLogging.Stdout;
              SharedLogging.LogFile "application.log";
              SharedLogging.LogFile "application.jsonl"]) /\
  (~ In lvl ["error"; "critical"; "warning"; "warn"; "info"] -> sinks = []).
Proof.
  intros Hinit st result lvl sinks Heff.
  assert (Hi : SharedLogging._initialized st = true)
    by apply setup_initialized.
  assert (Hh : SharedLogging.root_handlers result.2 =
               [SharedLogging.console_handler 20; SharedLogging.main_handler;
                SharedLogging.error_handler; SharedLogging.json_handler] /\
               SharedLogging.root_level result.2 = 20).
  { subst result. unfold log_frontend_event, SharedLogging.get_frontend_logger.
    destruct (get_logger_sinks name "FRONTEND" st) as (Hh & Hl & _).
    rewrite Hi in Hh, Hl.
    destruct (SharedLogging.get_logger name "FRONTEND" st) as [lg s'].
    simpl in *. rewrite Hh, Hl. subst st.
    rewrite (setup_handlers "INFO" true st0 Hinit).
    unfold SharedLogging.setup_centralized_logging. rewrite Hinit.
    split; reflexivity. }
  destruct Hh as [Hh Hroot].
  assert (Hl : SharedLogging.call_level result.1.2 = frontend_level lvl).
  { subst result. unfold log_frontend_event, SharedLogging.get_frontend_logger.
    destruct (SharedLogging.get_logger name "FRONTEND" st) as [lg s'].
    reflexivity. }
  assert (Hr : fr_status result.1.1 = "logged" /\ fr_level result.1.1 = lvl).
  { subst result. unfold log_frontend_event, SharedLogging.get_frontend_logger.
    destruct (SharedLogging.get_logger name "FRONTEND" st) as [lg s'].
    split; reflexivity. }
  destruct Hr as [Hr1 Hr2]. split; [exact Hr1|]. split; [exact Hr2|].
  subst sinks. unfold SharedLogging.sinks_reached.
  rewrite Heff, Hroot, Hh, Hl. unfold frontend_level.
  split; [|split].
  - intros [<- | [<- | []]]; reflexivity.
  - intros [<- | [<- | [<- | []]]]; reflexivity.
  - intros Hnot.
    repeat match goal with
           | |- context [String.eqb ?a ?b] =>
               destruct (String.eqb a b) eqn:E;
               [apply String.eqb_eq in E; exfalso; apply Hnot; rewrite E;
                simpl; tauto | clear E]
           end.
    reflexivity.
Qed.

End FrontendFacts.

Section FrontendExamples.
Import Main SharedLogging Samples.

Lemma frontend_context_redacted_witness :
  let event := fun c =>
    {| fe_level := "error"; fe_message := "boom"; fe_context := Some c;
       fe_url := Some "/cart"; fe_user_agent := None; fe_session_id := None;
       fe_timestamp := None |} in
  log_frontend_event (fun _ => "{}") "main"
      (event [("Password", VStr "one"); ("page", VInt 3)]) initial_state
    = log_frontend_event (fun _ => "{}") "main"
        (event [("Password", VStr "two"); ("page", VInt 3)]) initial_state /\
  (forall k v,
     In (k, v) (safe_context [("Password", VStr "one"); ("page", VInt 3)]) ->
     frontend_sensitive k = false).
Proof.
  apply (frontend_context_redacted (fun _ => "{}") "main" "error" "boom"
           (Some "/cart") None None None
           [("Password", VStr "one"); ("page", VInt 3)]
           [("Password", VStr "two"); ("page", VInt 3)] initial_state).
  - discriminate.
  - discriminate.
  - reflexivity.
Defined.

Lemma frontend_event_sinks_witness :
  let e := {| fe_level := "Trace"; fe_message := "x"; fe_context := None;
              fe_url := None; fe_user_agent := None; fe_session_id := None;
              fe_timestamp := None |} in
  let st := setup_centralized_logging "INFO" true initial_state in
  let result := log_frontend_event (fun _ => "{}") "main" e st in
  let lvl := Py.lower (fe_level e) in
  let sinks := sinks_reached result.2 result.1.2 in
  fr_status result.1.1 = "logged" /\
  fr_level result.1.1 = lvl /\
  (In lvl ["error"; "critical"] ->
     sinks = [Stdout; LogFile "application.log";
              LogFile "application_errors.log"; LogFile "application.jsonl"]) /\
  (In lvl ["warning"; "warn"; "info"] ->
     sinks = [Stdout; LogFile "application.log"; LogFile "application.jsonl"]) /\
  (~ In lvl ["error"; "critical"; "warning"; "warn"; "info"] -> sinks = []).
Proof.
  apply (frontend_event_sinks (fun _ => "{}") "main"
           {| fe_level := "Trace"; fe_message := "x"; fe_context := None;
              fe_url := None; fe_user_agent := None; fe_session_id := None;
              fe_timestamp := None |} initial_state).
  - reflexivity.
  - vm_compute. reflexivity.
Defined.

(** A logger under one of the quieted libraries does not take the root's
    level: its INFO calls are dropped. *)
Example sinks_reached_quieted :
  let st := setup_centralized_logging "INFO" true initial_state in
  getEffectiveLevel st "httpx.client" = levelno WARNING /\
  sinks_reached st
    {| call_logger := "httpx.client"; call_level := INFO; call_msg := "x";
       call_extra := {| x_span_id := None; x_span_op := None;
                        x_duration_ms := None; x_log_context := None |};
       call_exc_info := false |} = [].
Proof. vm_compute. split; reflexivity. Qed.

End FrontendExamples.

(** ** More on the diagnostic summary *)

Section DiagnosticFacts.
Import Jsonl AiDebugSummary.

Variable loads : string -> option entry.
Variable cutoff_of : Z -> string.

Lemma omap_cons_eq {A B} (f : A -> option B) a l :
  omap f (a :: l) =
  match f a with Some y => y :: omap f l | None => omap f l end.
Proof. reflexivity. Qed.

(** Decoding and testing in one pass is filtering the decoded list. *)
Lemma omap_match_filter {A B} (g : A -> option B) (p : B -> bool)
    (f : A -> option B) l :
  (forall x, f x = match g x with
                   | Some e => if p e then Some e else None
                   | None => None
                   end) ->
  omap f l = List.filter p (omap g l).
Proof.
  intros Hf. induction l as [|a l IH]; [reflexivity|].
  rewrite !omap_cons_eq, Hf, IH.
  destruct (g a) as [e|]; [|reflexivity].
  cbn [List.filter]. destruct (p e); reflexivity.
Qed.

Lemma filter_andb {A} (a b : A -> bool) l :
  List.filter (fun x => a x && b x) l = List.filter b (List.filter a l).
Proof.
  induction l as [|x l IH]; [reflexivity|]. cbn [List.filter].
  destruct (a x); cbn [andb List.filter]; [|exact IH].
  destruct (b x); now rewrite IH.
Qed.

(** X22: [parse_logs] keeps, in file order, the decoded records whose
    timestamp is not before the cutoff; with [errors_only] it keeps exactly
    the ERROR records among those; a missing file gives the empty list. *)
Theorem parse_logs_errors_only file hours :
  parse_logs loads cutoff_of file hours true
    = List.filter is_error (parse_logs loads cutoff_of file hours false) /\
  parse_logs loads cutoff_of file hours false
    = List.filter (fun e => String.leb (cutoff_of hours) (get_str ts e))
                  (omap loads (default [] file)) /\
  parse_logs loads cutoff_of None hours false = [].
Proof.
  assert (Hfalse : forall lines,
            parse_logs loads cutoff_of (Some lines) hours false
            = List.filter
                (fun e => String.leb (cutoff_of hours) (get_str ts e))
                (omap loads lines)).
  { intros lines. unfold parse_logs. apply omap_match_filter.
    intros line. destruct (loads line) as [e|]; reflexivity. }
  split; [|split; [|reflexivity]].
  - destruct file as [lines|]; [|reflexivity].
    rewrite Hfalse, <- filter_andb. unfold parse_logs.
    apply omap_match_filter.
    intros line. destruct (loads line) as [e|]; [|reflexivity].
    destruct (String.leb (cutoff_of hours) (get_str ts e)); [|reflexivity].
    simpl. destruct (is_error e); reflexivity.
  - destruct file as [lines|]; [apply Hfalse | reflexivity].
Qed.

Lemma filter_length_0 {A} (p : A -> bool) l :
  length (List.filter p l) = 0%nat <-> Forall (fun x => p x = false) l.
Proof.
  induction l as [|x l IH]; simpl.
  - split; [constructor | reflexivity].
  - destruct (p x) eqn:E; simpl.
    + split; [discriminate | intros H; inversion H; congruence].
    + rewrite IH. split; [now constructor | intros H; now inversion H].
Qed.

Lemma health_healthy_iff errors total :
  health (rate_of errors total) errors = "HEALTHY" <-> errors = 0%nat.
Proof.
  split.
  - unfold health.
    destruct (Qle_bool _ (1 # 10)); simpl; [|discriminate].
    destruct (Qle_bool _ (1 # 20)); simpl; [|discriminate].
    destruct errors; [reflexivity | discriminate].
  - intros ->. rewrite health_low; [reflexivity|].
    unfold rate_of, Qle. simpl. lia.
Qed.

Lemma In_append_if x c y s :
  In x (append_if c y s) -> In x s \/ (c = true /\ x = y).
Proof.
  unfold append_if. destruct c; [|now left].
  intros H. apply in_app_or in H as [H | [H | []]]; auto.
Qed.

Lemma append_if_cons c y x s :
  append_if c y (x :: s) = x :: append_if c y s.
Proof. unfold append_if. destruct c; reflexivity. Qed.

Lemma suggest_investigations_zero ea :
  total_errors ea = 0%nat -> suggest_investigations ea = [healthy_message].
Proof.
  intros H. unfold suggest_investigations. now rewrite H.
Qed.

Lemma suggest_investigations_pos ea :
  total_errors ea <> 0%nat ->
  ~ In healthy_message (suggest_investigations ea).
Proof.
  intros E0 Hin. unfold suggest_investigations in Hin.
  apply Nat.eqb_neq in E0. rewrite E0 in Hin.
  match type of Hin with In _ (match ?s with _ => _ end) =>
    assert (Hs : In healthy_message s \/
                 healthy_message = "Review recent errors for patterns")
      by (destruct s; [right; destruct Hin as [H|[]]; now rewrite H
                      | now left])
  end.
  destruct Hs as [Hs | Hs]; [|discriminate Hs].
  repeat (apply In_append_if in Hs as [Hs | [_ Hs]]; [|discriminate Hs]).
  destruct Hs.
Qed.

(** X23: [suggest_investigations] never returns an empty list; it returns
    the single message "No errors found - system appears healthy" when
    there is no error, and never that message otherwise; with more than
    ten errors the first suggestion is the HIGH one. *)
Theorem suggest_investigations_nonempty ea :
  suggest_investigations ea <> [] /\
  (total_errors ea = 0%nat -> suggest_investigations ea = [healthy_message]) /\
  (total_errors ea <> 0%nat -> ~ In healthy_message (suggest_investigations ea)) /\
  ((10 < total_errors ea)%nat ->
   head (suggest_investigations ea) =
     Some ("HIGH: " ++ pretty (total_errors ea)
             ++ " errors detected - investigate immediately")).
Proof.
  split; [|split; [apply suggest_investigations_zero
                  |split; [apply suggest_investigations_pos|]]].
  - unfold suggest_investigations.
    destruct (total_errors ea =? 0)%nat; [discriminate|].
    match goal with |- match ?s with _ => _ end <> [] =>
      destruct s; discriminate end.
  - intros H10. unfold suggest_investigations.
    assert (E0 : (total_errors ea =? 0)%nat = false)
      by (apply Nat.eqb_neq; lia).
    rewrite E0. apply Nat.ltb_lt in H10. rewrite H10.
    match goal with
    | |- context [append_if true ?y []] =>
        change (append_if true y []) with [y]
    end.
    rewrite !append_if_cons. reflexivity.
Qed.

(** X24: over a non-empty window the status is HEALTHY exactly when the
    window holds no ERROR record, and that is exactly when the only
    suggestion is the "no errors" one. *)
Theorem generate_summary_healthy_iff file hours :
  let logs := parse_logs loads cutoff_of file hours false in
  logs <> [] ->
  (status_of (generate_summary loads cutoff_of file hours) = Some "HEALTHY"
     <-> Forall (fun e => is_error e = false) logs) /\
  (suggest_investigations (analyze_errors logs) = [healthy_message]
     <-> Forall (fun e => is_error e = false) logs).
Proof.
  intros logs Hne.
  assert (Hst : status_of (generate_summary loads cutoff_of file hours) =
                Some (health (rate_of (length (List.filter is_error logs))
                                      (length logs))
                             (length (List.filter is_error logs)))).
  { unfold generate_summary. fold logs.
    destruct logs as [|e l]; [contradiction | reflexivity]. }
  rewrite Hst, <- filter_length_0. split.
  - split.
    + intros [= H]. apply health_healthy_iff in H. exact H.
    + intros H. f_equal. apply health_healthy_iff. exact H.
  - pose proof (suggest_investigations_zero (analyze_errors logs)) as H0.
    pose proof (suggest_investigations_pos (analyze_errors logs)) as Hn.
    change (total_errors (analyze_errors logs))
      with (length (List.filter is_error logs)) in *.
    split; [|exact H0].
    intros Heq.
    destruct (Nat.eq_dec (length (List.filter is_error logs)) 0%nat)
      as [|Hpos];
      [assumption|].
    exfalso. apply (Hn Hpos). rewrite Heq. now left.
Qed.

(** X25: [analyze_errors] counts the ERROR records, files each of them
    under its module ("Unknown" without one) with exact counts, and
    reports the last ten of them, oldest first. *)
Theorem analyze_errors_exact logs m :
  let errors := List.filter is_error logs in
  let ea := analyze_errors logs in
  total_errors ea = length errors /\
  Py.dict_get m (by_module ea) =
    (let n := filed (fun e => default "Unknown" (module e)) m errors in
     if (n =? 0)%nat then None else Some (Z.of_nat n)) /\
  map re_ts (recent_errors ea) = map ts (Main.newest 10 errors) /\
  length (recent_errors ea) = Nat.min 10 (length errors).
Proof.
  intros errors ea. subst ea. unfold analyze_errors. fold errors.
  cbn [total_errors by_module recent_errors].
  split; [reflexivity|]. split; [|split].
  - rewrite (fold_incr_get (fun e => default "Unknown" (module e))).
    cbn [Py.dict_get default].
    destruct (filed _ m errors =? 0)%nat; reflexivity.
  - rewrite (slice_from_neg 10) by lia. rewrite map_map. reflexivity.
  - rewrite length_map, (slice_from_neg 10) by lia.
    unfold Main.newest. rewrite length_drop.
    change (Z.to_nat 10) with 10%nat. lia.
Qed.

End DiagnosticFacts.

Section DiagnosticExamples.
Import Jsonl AiDebugSummary Samples.

Lemma generate_summary_healthy_iff_witness :
  let logs := parse_logs sample_loads (fun _ => "") (Some ["I01"; "I02"]) 24
                         false in
  (status_of (generate_summary sample_loads (fun _ => "")
                               (Some ["I01"; "I02"]) 24) = Some "HEALTHY"
     <-> Forall (fun e => is_error e = false) logs) /\
  (suggest_investigations (analyze_errors logs) = [healthy_message]
     <-> Forall (fun e => is_error e = false) logs).
Proof.
  apply (generate_summary_healthy_iff sample_loads (fun _ => "")
           (Some ["I01"; "I02"]) 24).
  vm_compute. discriminate.
Defined.

End DiagnosticExamples.

(** ** More on the log viewer *)

Section ViewMoreFacts.
Import Jsonl ViewLogs.

Variable loads : string -> option entry.
Variable cutoff_of : Z -> string.
Variable format_0f : Q -> string.

Lemma should_include_keep lv rid search e :
  should_include lv rid search e
  = Main.keep None (viewer_query lv rid search) e.
Proof. reflexivity. Qed.

Lemma selected_entries_filter all_lines lines lv rid search :
  0 < lines ->
  selected_entries loads all_lines lines lv rid search =
  Main.newest (Z.to_nat lines)
    (List.filter (should_include lv rid search)
       (omap loads (Main.newest (Z.to_nat (2 * lines)) all_lines))).
Proof.
  intros Hn. rewrite selected_entries_window by exact Hn. f_equal.
  apply omap_match_filter. intros line. reflexivity.
Qed.

(** X26: with [lines >= 1] the viewer decodes the last [2 * lines] lines of
    the file only, keeps those that decode and pass the filters, and prints
    the last [lines] of them in file order: never more than [lines]
    entries, each one a match from that window. *)
Theorem view_json_logs_positive all_lines lines lv rid search :
  0 < lines ->
  let window := Main.newest (Z.to_nat (2 * lines)) all_lines in
  let matches := List.filter (should_include lv rid search)
                             (omap loads window) in
  let printed := view_json_logs loads format_0f (Some all_lines) lines lv
                                rid search in
  printed = map (format_entry format_0f) (Main.newest (Z.to_nat lines) matches)
  /\ (length printed <= Z.to_nat lines)%nat
  /\ ((length matches <= Z.to_nat lines)%nat ->
      printed = map (format_entry format_0f) matches).
Proof.
  intros Hn window matches printed. subst printed window matches.
  unfold view_json_logs. rewrite selected_entries_filter by exact Hn.
  split; [reflexivity|]. split.
  - rewrite length_map. apply newest_length.
  - intros Hfit. now rewrite newest_all.
Qed.

(** X27: when the file has at most [2 * lines] lines, the entries the
    viewer selects with [--lines lines] are the records the log query of
    the API returns with [last = lines] and the same level, request-id and
    search filters. *)
Theorem viewer_agrees_with_api all_lines lines lv rid search incl :
  0 < lines ->
  (length all_lines <= Z.to_nat (2 * lines))%nat ->
  selected_entries loads all_lines lines lv rid search =
  Main.response_logs
    (Main.get_debug_logs loads cutoff_of (Some all_lines) lines
                         (viewer_query lv rid search) incl).
Proof.
  intros Hn Hlen. rewrite selected_entries_filter by exact Hn.
  rewrite (newest_all _ all_lines) by exact Hlen.
  rewrite get_debug_logs_newest.
  assert (Hc : Main.cutoff_time_of cutoff_of (viewer_query lv rid search)
               = None) by reflexivity.
  rewrite Hc. f_equal.
Qed.

(** The characters of a text that contains another. *)
Lemma startswith_chars p s :
  Py.startswith p s = true ->
  forall c, In c (list_ascii_of_string p) -> In c (list_ascii_of_string s).
Proof.
  revert s. induction p as [|a p IH]; intros s H c Hc; [destruct Hc|].
  destruct s as [|b s]; [discriminate|]. simpl in H.
  apply andb_true_iff in H as [Hab Hp]. apply Ascii.eqb_eq in Hab. subst b.
  destruct Hc as [<- | Hc]; [now left | right; eauto].
Qed.

Lemma contains_chars p s :
  Py.contains p s = true ->
  forall c, In c (list_ascii_of_string p) -> In c (list_ascii_of_string s).
Proof.
  induction s as [|b s IH]; simpl; intros H c Hc.
  - rewrite orb_false_r in H. exact (startswith_chars p "" H c Hc).
  - apply orb_true_iff in H as [H | H].
    + exact (startswith_chars p (String b s) H c Hc).
    + right. now apply IH.
Qed.

Lemma upper_chars s c :
  In c (list_ascii_of_string (Py.upper s)) -> Py.is_lower_ascii c = false.
Proof.
  induction s as [|a s IH]; simpl; [contradiction|].
  intros [<- | H]; [apply upper_ascii_not_lower | auto].
Qed.

(** X28: in the plain-text viewer the level is looked for, as typed, in
    the upper-cased line: a level written with a lower-case letter matches
    no line, and nothing is printed. *)
Theorem view_text_logs_lower_level all_lines lines level_ rid search c :
  In c (list_ascii_of_string level_) ->
  Py.is_lower_ascii c = true ->
  view_text_logs (Some all_lines) lines (Some level_) rid search = [].
Proof.
  intros Hc Hlow. unfold view_text_logs, print_filtered_lines.
  assert (Hnone : forall line,
            text_include (Some level_) rid search line = false).
  { intros line. unfold text_include.
    assert (Ht : Main.supplied (Some level_) = Some level_).
    { simpl. destruct level_; [destruct Hc | reflexivity]. }
    rewrite Ht.
    destruct (Py.contains ("| " ++ level_) (Py.upper line)) eqn:E;
      [|reflexivity].
    exfalso.
    assert (Hin : In c (list_ascii_of_string ("| " ++ level_)))
      by (right; right; exact Hc).
    pose proof (contains_chars _ _ E c Hin) as Hup.
    apply upper_chars in Hup. congruence. }
  induction (Py.slice_from (- lines) all_lines) as [|l ls IH];
    [reflexivity|].
  cbn [List.filter]. now rewrite Hnone.
Qed.

(** X29: with [lines >= 1] the plain-text viewer looks at the last [lines]
    lines of the file only and prints, in order, those that pass the
    filters: at most [lines] lines. *)
Theorem view_text_logs_positive all_lines lines lv rid search :
  0 < lines ->
  let printed := view_text_logs (Some all_lines) lines lv rid search in
  printed =
    map (colorize_line ["ERROR"; "WARNING"; "INFO"; "DEBUG"])
        (List.filter (text_include lv rid search)
                     (Main.newest (Z.to_nat lines) all_lines)) /\
  (length printed <= Z.to_nat lines)%nat.
Proof.
  intros Hn printed. subst printed.
  unfold view_text_logs, print_filtered_lines.
  rewrite (slice_from_neg lines) by exact Hn.
  split; [reflexivity|].
  rewrite length_map. etransitivity; [apply filter_length_le|].
  apply newest_length.
Qed.

End ViewMoreFacts.

Section ViewMoreExamples.
Import Jsonl ViewLogs Samples.

Lemma view_json_logs_positive_witness :
  let all_lines := ["E01"; "E02"; "I03"; "oops"; "E04"] in
  let window := Main.newest (Z.to_nat (2 * 2)) all_lines in
  let matches := List.filter (should_include (Some "error") None None)
                             (omap sample_loads window) in
  let printed := view_json_logs sample_loads (fun _ => "0") (Some all_lines)
                                2 (Some "error") None None in
  printed = map (format_entry (fun _ => "0")) (Main.newest (Z.to_nat 2) matches)
  /\ (length printed <= Z.to_nat 2)%nat
  /\ ((length matches <= Z.to_nat 2)%nat ->
      printed = map (format_entry (fun _ => "0")) matches).
Proof.
  apply (view_json_logs_positive sample_loads (fun _ => "0")
           ["E01"; "E02"; "I03"; "oops"; "E04"] 2 (Some "error") None None).
  lia.
Defined.

Lemma viewer_agrees_with_api_witness :
  selected_entries sample_loads ["E01"; "oops"; "I03"] 2 (Some "error") None
                   None =
  Main.response_logs
    (Main.get_debug_logs sample_loads (fun _ => "")
                         (Some ["E01"; "oops"; "I03"]) 2
                         (viewer_query (Some "error") None None) true).
Proof.
  apply (viewer_agrees_with_api sample_loads (fun _ => "")
           ["E01"; "oops"; "I03"] 2 (Some "error") None None true).
  - lia.
  - simpl. lia.
Defined.

Lemma view_text_logs_lower_level_witness :
  view_text_logs (Some ["2024-01-01 10:00:00 | ERROR    | [MAIN] | ---- | x"])
                 50 (Some "error") None None = [].
Proof.
  apply (view_text_logs_lower_level
           ["2024-01-01 10:00:00 | ERROR    | [MAIN] | ---- | x"] 50 "error"
           None None "e"%char).
  - simpl. left. reflexivity.
  - reflexivity.
Defined.

Lemma view_text_logs_positive_witness :
  let all_lines := ["a | INFO | x"; "b | ERROR | y"; "c | INFO | z"] in
  let printed := view_text_logs (Some all_lines) 2 (Some "INFO") None None in
  printed =
    map (colorize_line ["ERROR"; "WARNING"; "INFO"; "DEBUG"])
        (List.filter (text_include (Some "INFO") None None)
                     (Main.newest (Z.to_nat 2) all_lines)) /\
  (length printed <= Z.to_nat 2)%nat.
Proof.
  apply (view_text_logs_positive
           ["a | INFO | x"; "b | ERROR | y"; "c | INFO | z"] 2 (Some "INFO")
           None None).
  lia.
Defined.

End ViewMoreExamples.
